(** * util/utils.py: training utilities, embedded and verified

    The helpers of [util/utils.py] are embedded function by function.
    Python objects that the code mutates in place (an [AverageMeter], the
    tensors of a process group, standard output, the file system) are
    threaded through a small state-and-exception monad, so that a raised
    exception keeps the mutations performed before it, as in Python.

    Numbers: the values an [AverageMeter] accumulates and the scores
    [accuracy] compares are exact rationals ([Qc], canonical fractions with
    Leibniz equality); true division by zero raises [ZeroDivisionError],
    as it does for Python numbers.  Where a statement is about the value a
    tensor operation leaves ([scaled_all_reduce], the result of
    [accuracy]), the arithmetic is a parameter of the model, of which no
    law is assumed, and it is instantiated by IEEE 754 binary32 and
    binary64 ([Ieee]) wherever a value is evaluated. *)

From Stdlib Require Import ZArith QArith Qcanon Ascii String List Lia.
From Stdlib Require Import DecimalString DecimalFacts DecimalNat DecimalPos DecimalZ.
From Stdlib Require Import Floats.SpecFloat.
From stdpp Require Import base option numbers list strings gmap.

Local Open Scope Z_scope.
Local Open Scope string_scope.
Local Open Scope list_scope.

(** ** Python exceptions and the state-and-exception monad *)

Module Py.

Inductive exn : Type :=
| ZeroDivisionError
| ValueError (msg : string)
| RuntimeError (msg : string)
| SyntaxError (msg : string)
| FileNotFoundError (path : string)
| SameFileError (path : string).

Inductive result (A : Type) : Type :=
| Ok (a : A)
| Raise (e : exn).
Arguments Ok {A} a.
Arguments Raise {A} e.

(** A computation over a mutable store [S]: it always yields the store it
    leaves behind, also when it raises. *)
Definition M (S A : Type) : Type := S -> result A * S.

Definition ret {S A} (a : A) : M S A := fun s => (Ok a, s).

Definition bind {S A B} (c : M S A) (k : A -> M S B) : M S B :=
  fun s => match c s with
           | (Ok a, s') => k a s'
           | (Raise e, s') => (Raise e, s')
           end.

Definition raise {S A} (e : exn) : M S A := fun s => (Raise e, s).
Definition get {S} : M S S := fun s => (Ok s, s).
Definition modify {S} (f : S -> S) : M S unit := fun s => (Ok tt, f s).

(** [for x in xs: body(x)] *)
Fixpoint for_ {S A} (xs : list A) (body : A -> M S unit) : M S unit :=
  match xs with
  | [] => ret tt
  | x :: xs' => bind (body x) (fun _ => for_ xs' body)
  end.

(** [ys = []; for x in xs: ys.append(body(x))] *)
Fixpoint for_append {S A B} (ys : list B) (xs : list A) (body : A -> M S B)
  : M S (list B) :=
  match xs with
  | [] => ret ys
  | x :: xs' => bind (body x) (fun y => for_append (ys ++ [y]) xs' body)
  end.

(** Python's [a / b] on numbers. *)
Definition truediv (a b : Qc) : result Qc :=
  if decide (b = 0%Qc) then Raise ZeroDivisionError else Ok (a / b)%Qc.

Definition lift {S A} (r : result A) : M S A := fun s => (r, s).

End Py.

Declare Scope py_scope.
Delimit Scope py_scope with py.
Notation "x <- c ;; k" := (Py.bind c (fun x => k))
  (at level 100, c at next level, right associativity) : py_scope.
Notation "c ;; k" := (Py.bind c (fun _ => k))
  (at level 100, right associativity) : py_scope.

(** ** class AverageMeter *)

Module AverageMeter.

(** The instance attributes, in the order [__init__] creates them. *)
Record t : Type := mk {
  name : string;
  fmt : string;
  val : Qc;
  avg : Qc;
  sum : Qc;
  count : Qc
}.

Definition set_val (x : Qc) (self : t) : t :=
  mk (name self) (fmt self) x (avg self) (sum self) (count self).
Definition set_avg (x : Qc) (self : t) : t :=
  mk (name self) (fmt self) (val self) x (sum self) (count self).
Definition set_sum (x : Qc) (self : t) : t :=
  mk (name self) (fmt self) (val self) (avg self) x (count self).
Definition set_count (x : Qc) (self : t) : t :=
  mk (name self) (fmt self) (val self) (avg self) (sum self) x.

(** [def reset(self)] *)
Definition reset : Py.M t unit :=
  (Py.modify (set_val 0%Qc) ;;
   Py.modify (set_avg 0%Qc) ;;
   Py.modify (set_sum 0%Qc) ;;
   Py.modify (set_count 0%Qc))%py.

(** [def __init__(self, name, fmt=":f")]: the two string attributes are
    stored, then [reset] creates the four numeric ones. *)
Definition init (name fmt : string) : t :=
  snd (reset (mk name fmt 0%Qc 0%Qc 0%Qc 0%Qc)).

(** [def update(self, val, n=1)] *)
Definition update (v n : Qc) : Py.M t unit :=
  (Py.modify (set_val v) ;;
   Py.modify (fun self => set_sum (sum self + v * n)%Qc self) ;;
   Py.modify (fun self => set_count (count self + n)%Qc self) ;;
   self <- Py.get ;;
   q <- Py.lift (Py.truediv (sum self) (count self)) ;;
   Py.modify (set_avg q))%py.

(** The attribute dictionary [self.__dict__] that [__str__] formats. *)
Inductive attr : Type :=
| AStr (s : string)
| ANum (q : Qc).

Definition dict (self : t) : gmap string attr :=
  <["name" := AStr (name self)]>
  (<["fmt" := AStr (fmt self)]>
  (<["val" := ANum (val self)]>
  (<["avg" := ANum (avg self)]>
  (<["sum" := ANum (sum self)]>
  (<["count" := ANum (count self)]> ∅))))).

(** A sequence of calls [update(v_1, n_1); ...; update(v_m, n_m)]. *)
Definition updates (calls : list (Qc * Qc)) : Py.M t unit :=
  Py.for_ calls (fun c => update (fst c) (snd c)).

(** Sigma v_i * n_i and Sigma n_i of a call sequence. *)
Definition weighted_total (calls : list (Qc * Qc)) : Qc :=
  foldr (fun c acc => (fst c * snd c + acc)%Qc) 0%Qc calls.
Definition total_count (calls : list (Qc * Qc)) : Qc :=
  foldr (fun c acc => (snd c + acc)%Qc) 0%Qc calls.

(** The running count, started at [acc], never hits zero: the condition
    under which no call of the sequence raises. *)
Fixpoint counts_nonzero (acc : Qc) (calls : list (Qc * Qc)) : Prop :=
  match calls with
  | [] => True
  | c :: calls' => (acc + snd c)%Qc ≠ 0%Qc ∧ counts_nonzero (acc + snd c)%Qc calls'
  end.

(** The three equations of the specification, read on a meter: the
    quotient [sum / count] has to exist and be [avg]. *)
Definition tracks (calls : list (Qc * Qc)) (self : t) : Prop :=
  sum self = weighted_total calls ∧
  count self = total_count calls ∧
  Py.truediv (sum self) (count self) = Py.Ok (avg self).

(** Every attribute of the object is the number zero. *)
Definition all_attributes_zero (self : t) : Prop :=
  ∀ k a, dict self !! k = Some a → a = ANum 0%Qc.

End AverageMeter.

(** ** scaled_all_reduce

    [torch.distributed] is the external framework; its collective is
    modelled by what its documentation promises.  A process group of [w]
    processes runs the same program; every process owns a heap of tensor
    objects, and the tensor that one process knows by a reference is known
    to every other process by the same reference.  A call of the model
    stands for the call made by every process of the group, which is what a
    collective needs in order to complete.

    [all_reduce(tensor, async_op=True)] only enqueues the reduction and
    hands back a work handle; the reduction takes effect, on every process,
    when the handle is waited on, after those enqueued before it (the
    communication stream is first-in first-out).  Its effect is to
    overwrite the tensor, on every process, by the elementwise sum of the
    tensor over the group.

    This model records the framework calls in the order they are made and
    is used for that order and for the tensors the function leaves alone;
    its tensors hold rationals.  The values the function leaves in its
    tensors are the subject of [Collective]. *)

Module Dist.

(** A tensor's contents, flattened. *)
Definition tensor : Type := list Qc.
(** The identity of a tensor object. *)
Definition loc : Type := nat.

Inductive event : Type :=
| Issue (handle : nat) (tensor : loc)
| Wait (handle : nat)
| Scale (tensor : loc).

Record world : Type := mk {
  heaps : list (gmap loc tensor);   (* one heap per process, by rank *)
  queue : list (nat * loc);         (* reductions issued, not yet completed *)
  next : nat;                       (* next work handle *)
  trace : list event                (* framework calls made so far *)
}.

Definition tadd (a b : tensor) : tensor := zip_with Qcplus a b.
Definition tscale (c : Qc) (a : tensor) : tensor := map (Qcmult c) a.

(** Elementwise sum of one tensor per process. *)
Definition tsum (ts : list tensor) : tensor :=
  match ts with
  | [] => []
  | t :: ts' => foldl tadd t ts'
  end.

(** The copies, by rank, of the tensor known as [l]. *)
Definition column (l : loc) (hs : list (gmap loc tensor)) : list tensor :=
  map (fun hp => default [] (hp !! l)) hs.

(** A completed sum-reduction of [l]: every process's copy is overwritten
    by the sum.  (A reference that has no object in some heap reads as the
    empty tensor there.) *)
Definition reduce (l : loc) (hs : list (gmap loc tensor)) : list (gmap loc tensor) :=
  let s := tsum (column l hs) in
  map (insert l s) hs.

(** [tensor.mul_(c)], by every process on its own copy. *)
Definition scale (c : Qc) (l : loc) (hs : list (gmap loc tensor)) : list (gmap loc tensor) :=
  map (alter (tscale c) l) hs.

(** Complete the queued reductions up to and including handle [h]. *)
Fixpoint complete (h : nat) (q : list (nat * loc)) (hs : list (gmap loc tensor))
  : list (nat * loc) * list (gmap loc tensor) :=
  match q with
  | [] => ([], hs)
  | (h', l) :: q' =>
      if decide (h' ≤ h)%nat then complete h q' (reduce l hs) else (q, hs)
  end.

(** [torch.distributed.get_world_size()] *)
Definition get_world_size : Py.M world Z :=
  fun w => (Py.Ok (Z.of_nat (length (heaps w))), w).

(** [torch.distributed.all_reduce(tensor, async_op=True)] *)
Definition all_reduce (l : loc) : Py.M world nat :=
  fun w => (Py.Ok (next w),
            mk (heaps w) (queue w ++ [(next w, l)]) (S (next w))
               (trace w ++ [Issue (next w) l])).

(** [reduction.wait()] *)
Definition wait (h : nat) : Py.M world unit :=
  fun w => let '(q, hs) := complete h (queue w) (heaps w) in
           (Py.Ok tt, mk hs q (next w) (trace w ++ [Wait h])).

(** [tensor.mul_(c)] *)
Definition mul_ (l : loc) (c : Qc) : Py.M world unit :=
  fun w => (Py.Ok tt,
            mk (scale c l (heaps w)) (queue w) (next w) (trace w ++ [Scale l])).

(** [def scaled_all_reduce(tensors)] *)
Definition scaled_all_reduce (tensors : list loc) : Py.M world (list loc) :=
  (gpus <- get_world_size ;;
   if decide (gpus = 1) then Py.ret tensors else
   reductions <- Py.for_append [] tensors (fun tensor => all_reduce tensor) ;;
   Py.for_ reductions (fun reduction => wait reduction) ;;
   Py.for_ tensors (fun tensor =>
     c <- Py.lift (Py.truediv 1%Qc (Qc_of_Z gpus)) ;;
     mul_ tensor c) ;;
   Py.ret tensors)%py.

(** The reductions of a list of tensors completed in order, and the
    scalings of a list of tensors applied in order. *)
Definition reduce_all (ls : list loc) (hs : list (gmap loc tensor)) : list (gmap loc tensor) :=
  foldl (fun hs l => reduce l hs) hs ls.
Definition scale_all (c : Qc) (ls : list loc) (hs : list (gmap loc tensor)) : list (gmap loc tensor) :=
  foldl (fun hs l => scale c l hs) hs ls.

(** On the copies of one tensor: a reduction, and a scaling. *)
Definition reduce_column (col : list tensor) : list tensor :=
  replicate (length col) (tsum col).
Definition scale_column (c : Qc) (col : list tensor) : list tensor :=
  map (tscale c) col.

End Dist.

(** ** accuracy

    [output] holds one row of class scores per sample, [target] one class
    index per sample, [topk] the tuple of ranks asked for.  The function
    touches no store; it can only return or raise. *)

Module Accuracy.

(** [max(topk)] *)
Definition py_max (ks : list nat) : Py.result nat :=
  match ks with
  | [] => Py.Raise (Py.ValueError "max() arg is an empty sequence")
  | k :: ks' => Py.Ok (foldl Nat.max k ks')
  end.

(** Scores paired with their class index, largest score first; among equal
    scores the lower index comes first (the framework leaves that order
    open). *)
Fixpoint insert_desc (x : Qc * nat) (l : list (Qc * nat)) : list (Qc * nat) :=
  match l with
  | [] => [x]
  | y :: l' => if decide (fst y ≤ fst x)%Qc then x :: l else y :: insert_desc x l'
  end.

Definition sort_desc (l : list (Qc * nat)) : list (Qc * nat) :=
  foldr insert_desc [] l.

(** One row of [output.topk(k, 1, True, True)]: the indices of the [k]
    largest scores of the row, largest first. *)
Definition topk_row (k : nat) (row : list Qc) : Py.result (list nat) :=
  if decide (k ≤ length row)%nat
  then Py.Ok (take k (map snd (sort_desc (zip row (seq 0 (length row))))))
  else Py.Raise (Py.RuntimeError "selected index k out of range").

(** [pred.t()] of a [batch x maxk] index matrix. *)
Definition transpose (maxk : nat) (pred : list (list nat)) : list (list nat) :=
  map (fun j => map (fun row => nth j row 0%nat) pred) (seq 0 maxk).

(** [target.view(1, -1).expand_as(pred)]: a row of [batch] targets is
    repeated for every row of [pred]; a single target is also broadcast
    along the batch. *)
Definition expand_as (target : list nat) (batch : nat) : Py.result (list nat) :=
  if decide (length target = batch) then Py.Ok target
  else match target with
       | [c] => Py.Ok (replicate batch c)
       | _ => Py.Raise (Py.RuntimeError "The expanded size of the tensor must match the existing size")
       end.

(** [correct[:k].reshape(-1).float().sum(0, keepdim=True)] *)
Definition correct_sum (k : nat) (correct : list (list bool)) : Qc :=
  Qc_of_Z (Z.of_nat (length (filter (fun b => b = true) (concat (take k correct))))).

(** [def accuracy(output, target, topk=(1,))] *)
Definition accuracy (output : list (list Qc)) (target : list nat) (topk : list nat)
  : Py.result (list Qc) :=
  fst ((maxk <- Py.lift (py_max topk) ;;
        let batch_size := length target in
        pred <- Py.for_append [] output (fun row => Py.lift (topk_row maxk row)) ;;
        let pred := transpose maxk pred in
        expanded <- Py.lift (expand_as target (length output)) ;;
        let correct := map (fun row => zip_with Nat.eqb row expanded) pred in
        Py.for_append [] topk (fun k =>
          let correct_k := correct_sum k correct in
          c <- Py.lift (Py.truediv (Qc_of_Z 100) (Qc_of_Z (Z.of_nat batch_size))) ;;
          Py.ret (correct_k * c)%Qc))%py tt).

(** A row that is certain of class [c]: score 1 there, 0 elsewhere. *)
Definition one_hot (classes c : nat) : list Qc :=
  map (fun j => if decide (j = c) then 1%Qc else 0%Qc) (seq 0 classes).

(** Every prediction of the batch is one-hot at its target class. *)
Definition certain_and_right (output : list (list Qc)) (target : list nat) : Prop :=
  Forall2 (fun row c => (c < length row)%nat ∧ row = one_hot (length row) c)
          output target.

End Accuracy.

(** ** get_lr_scheduler

    Lines 201 and 205 of the file are kept as the token sequences Python's
    tokenizer produces for them, next to a recogniser for the part of the
    grammar they use.  A module whose text the grammar rejects is never
    executed: importing it raises [SyntaxError]. *)

Module Sched.

Inductive token : Type :=
| KW (s : string)
| NAME (s : string)
| STRING (s : string)
| NUMBER (s : string)
| OP (s : string)
| NEWLINE.

(** [primary: atom ('.' NAME)*] with [atom: NAME | STRING | NUMBER];
    the tokens left after the longest primary, if there is one. *)
Fixpoint trailers (ts : list token) : list token :=
  match ts with
  | OP "." :: NAME _ :: ts' => trailers ts'
  | _ => ts
  end.

Definition primary (ts : list token) : option (list token) :=
  match ts with
  | NAME _ :: ts' => Some (trailers ts')
  | STRING _ :: ts' => Some ts'
  | NUMBER _ :: ts' => Some ts'
  | _ => None
  end.

Definition is_compare_op (s : string) : bool :=
  bool_decide (s ∈ ["=="; "!="; "<"; "<="; ">"; ">="]).

(** [comparison: primary (compare_op primary)*] *)
Fixpoint comparison_tail (fuel : nat) (ts : list token) : option (list token) :=
  match fuel, ts with
  | S fuel', OP o :: ts' =>
      if is_compare_op o
      then match primary ts' with
           | Some rest => comparison_tail fuel' rest
           | None => None
           end
      else Some ts
  | _, _ => Some ts
  end.

Definition comparison (ts : list token) : option (list token) :=
  match primary ts with
  | Some rest => comparison_tail (length rest) rest
  | None => None
  end.

(** The header of an [if] or [elif] clause: ['if' expression ':' NEWLINE]. *)
Definition accepts_if_header (ts : list token) : bool :=
  match ts with
  | KW kw :: ts' =>
      bool_decide (kw ∈ ["if"; "elif"]) &&
      match comparison ts' with
      | Some [OP ":"; NEWLINE] => true
      | _ => false
      end
  | _ => false
  end.

(** One argument of a call: [NAME '=' expression] or [expression]. *)
Definition accepts_argument (ts : list token) : bool :=
  match ts with
  | NAME _ :: OP "=" :: ts' =>
      match comparison ts' with Some [] => true | _ => false end
  | _ => match comparison ts with Some [] => true | _ => false end
  end.

(** Line 201: [if cfg.OPTIM.LR_POLICY = "cos"] *)
Definition line_201 : list token :=
  [KW "if"; NAME "cfg"; OP "."; NAME "OPTIM"; OP "."; NAME "LR_POLICY";
   OP "="; STRING "cos"; NEWLINE].

(** Line 203: [elif cfg.OPTIM.LR_POLICY == 'steps':] *)
Definition line_203 : list token :=
  [KW "elif"; NAME "cfg"; OP "."; NAME "OPTIM"; OP "."; NAME "LR_POLICY";
   OP "=="; STRING "steps"; OP ":"; NEWLINE].

(** Line 205, third argument of the call: [cfg.OPTIM.LR_MULT=0.1] *)
Definition line_205_argument : list token :=
  [NAME "cfg"; OP "."; NAME "OPTIM"; OP "."; NAME "LR_MULT"; OP "=";
   NUMBER "0.1"].

(** Whether the text of the function is accepted by the grammar. *)
Definition compiles : bool :=
  accepts_if_header line_201 && accepts_if_header line_203 &&
  accepts_argument line_205_argument.

(** The fields of [cfg.OPTIM] the function reads; [cfg] comes from
    [util/config.py]. *)
Record optim : Type := mk_optim {
  LR_POLICY : string;
  MAX_EPOCH : Z;
  LR_MULT : Qc
}.

Inductive scheduler (Optimizer : Type) : Type :=
| CosineAnnealingLR (optimizer : Optimizer) (T_max : Z) (eta_min : Qc)
| MultiStepLR (optimizer : Optimizer) (milestones : list Z) (gamma : Qc).
Arguments CosineAnnealingLR {Optimizer}.
Arguments MultiStepLR {Optimizer}.

(** [def get_lr_scheduler(optimizer)]: the branches as the text spells
    them, reachable only if the text compiles. *)
Definition get_lr_scheduler {Optimizer : Type} (cfg : optim) (optimizer : Optimizer)
  : Py.result (scheduler Optimizer) :=
  if compiles then
    if String.eqb (LR_POLICY cfg) "cos" then
      Py.Ok (CosineAnnealingLR optimizer (MAX_EPOCH cfg) (1 / Qc_of_Z 100000)%Qc)
    else if String.eqb (LR_POLICY cfg) "steps" then
      Py.Ok (MultiStepLR optimizer
               [MAX_EPOCH cfg * 3 / 7; MAX_EPOCH cfg * 6 / 7] (LR_MULT cfg))
    else Py.Raise (Py.ValueError "not supported")
  else Py.Raise (Py.SyntaxError "invalid syntax").

End Sched.

(** ** save_checkpoint

    The file system maps a resolved path to a file's contents.  What
    [torch.save] writes is opaque: the pickled state. *)

Module Ckpt.

(** The components of a path, split at ["/"]. *)
Fixpoint components (p : string) : list string :=
  match p with
  | EmptyString => [EmptyString]
  | String c rest =>
      if Ascii.eqb c "/"%char then EmptyString :: components rest
      else match components rest with
           | seg :: segs => String c seg :: segs
           | [] => [String c EmptyString]
           end
  end.

(** A relative path resolved against the working directory: empty and
    ["."] components name no directory. *)
Definition resolve (p : string) : list string :=
  filter (fun seg => seg ≠ EmptyString ∧ seg ≠ ".") (components p).

Inductive file (State : Type) : Type :=
| Pickled (state : State).
Arguments Pickled {State}.

(** [torch.save(state, f)] *)
Definition torch_save {State} (state : State) (f : string)
  : Py.M (gmap (list string) (file State)) unit :=
  Py.modify (fun fs => <[resolve f := Pickled state]> fs).

(** [shutil.copyfile(src, dst)] *)
Definition copyfile {State} (src dst : string)
  : Py.M (gmap (list string) (file State)) unit :=
  (fs <- Py.get ;;
   match fs !! resolve src with
   | None => Py.raise (Py.FileNotFoundError src)
   | Some contents =>
       if decide (resolve src = resolve dst) then Py.raise (Py.SameFileError src)
       else Py.modify (fun fs => <[resolve dst := contents]> fs)
   end)%py.

(** [def save_checkpoint(state, is_best, filename="ckpt.pth.tar")] *)
Definition save_checkpoint {State} (state : State) (is_best : bool) (filename : string)
  : Py.M (gmap (list string) (file State)) unit :=
  let path := "./checkpoint/" +:+ filename in
  (torch_save state filename ;;
   if is_best then copyfile filename "ckpt_best.pth.tar" else Py.ret tt)%py.

End Ckpt.

(** ** show_log

    Standard output is the list of lines printed so far. *)

Module Log.

(** [print(s)] *)
Definition print (s : string) : Py.M (list string) unit :=
  Py.modify (fun out => out ++ [s]).

(** [def show_log(log_str, rank)] *)
Definition show_log (log_str : string) (rank : Z) : Py.M (list string) unit :=
  if decide (rank = 0) then print log_str else Py.ret tt.

End Log.

(** ** AverageMeter in use

    The meter a sequence of [update] calls leaves behind when the caller
    carries on after a call that raised: each call's mutations are kept,
    as the object keeps them. *)

Module MeterUse.

Definition after (calls : list (Qc * Qc)) (self : AverageMeter.t) : AverageMeter.t :=
  foldl (fun self c => snd (AverageMeter.update (fst c) (snd c) self)) self calls.

(** The value of the last call, or [d] if there was none. *)
Definition last_value (d : Qc) (calls : list (Qc * Qc)) : Qc :=
  foldl (fun _ c => fst c) d calls.

End MeterUse.

(** ** scaled_all_reduce: what each process holds

    The object, if any, that each process holds under a reference. *)

Module DistView.


End DistView.

(** ** accuracy: the parts of its result *)

Module AccuracyView.

(** The number of [True] entries. *)
Definition hits (bs : list bool) : nat :=
  length (filter (fun b => b = true) bs).

(** [correct]: row [j] tells, sample by sample, whether the prediction of
    rank [j] is the target. *)
Definition correct_matrix (maxk : nat) (pred : list (list nat)) (expanded : list nat)
  : list (list bool) :=
  map (fun row => zip_with Nat.eqb row expanded) (Accuracy.transpose maxk pred).

(** The value appended for one [k]. *)
Definition percent (correct : list (list bool)) (batch_size : nat) (k : nat) : Qc :=
  (Accuracy.correct_sum k correct
   * (Qc_of_Z 100 / Qc_of_Z (Z.of_nat batch_size)))%Qc.

End AccuracyView.

(** ** save_checkpoint: plain paths

    [Ckpt.resolve] does not follow [".."]; a path is plain when it has no
    such component, and then its resolved form names the file. *)

Module CkptView.

Definition plain (p : list string) : Prop := ".." ∉ p.

(** The resolved name of the best copy. *)
Definition best : list string := Ckpt.resolve "ckpt_best.pth.tar".

(** A path that does not start at the root. *)
Definition relative (filename : string) : Prop :=
  match filename with
  | String c _ => c ≠ "/"%char
  | EmptyString => True
  end.

(** A file name of the working directory: a single path component that
    is neither empty nor the name of a directory. *)
Definition in_working_directory (filename : string) : Prop :=
  Ckpt.components filename = [filename] ∧
  filename ≠ "" ∧ filename ≠ "." ∧ filename ≠ "..".

(** A name written with [n] leading ["./"]. *)
Definition dotted (n : nat) (name : string) : string :=
  Nat.iter n (fun s => "./" +:+ s) name.

End CkptView.

(** ** Python builtins on integers *)

Module Builtins.

(** [str(n)] for an integer: its decimal digits, with a leading ["-"] if
    it is negative. *)
Definition str (n : Z) : string := NilZero.string_of_int (Z.to_int n).

(** [a % b] on integers; the result has the sign of [b]. *)
Definition mod_ (a b : Z) : Py.result Z :=
  if decide (b = 0) then Py.Raise Py.ZeroDivisionError else Py.Ok (a mod b).

End Builtins.

(** ** setup_distributed

    The process environment [os.environ] is a map from names to strings.
    What the call does to the framework is recorded: the device selected
    by [torch.cuda.set_device], the arguments of
    [dist.init_process_group], the value stored in
    [torch.backends.cudnn.benchmark].  The number of devices,
    [int] on strings and the output of the [scontrol] command belong to
    the platform and are taken as given. *)

Module Setup.

Inductive exn : Type :=
| KeyError (key : string)
| Builtin (e : Py.exn).

Inductive result (A : Type) : Type :=
| Ok (a : A)
| Raise (e : exn).
Arguments Ok {A} a.
Arguments Raise {A} e.

Record host : Type := mk {
  environ : gmap string string;
  device_count : Z;                       (* torch.cuda.device_count() *)
  device : option Z;                      (* set by torch.cuda.set_device *)
  group : option (string * Z * Z);        (* backend, world_size, rank *)
  benchmark : option bool                 (* torch.backends.cudnn.benchmark *)
}.

Definition M (A : Type) : Type := host -> result A * host.

Definition ret {A} (a : A) : M A := fun h => (Ok a, h).
Definition bind {A B} (c : M A) (k : A -> M B) : M B :=
  fun h => match c h with
           | (Ok a, h') => k a h'
           | (Raise e, h') => (Raise e, h')
           end.

(** A builtin's result, with its exception passed on. *)
Definition builtin {A} (r : Py.result A) : M A :=
  fun h => match r with
           | Py.Ok a => (Ok a, h)
           | Py.Raise e => (Raise (Builtin e), h)
           end.

(** [key in os.environ] *)
Definition has (key : string) : M bool :=
  fun h => (Ok (bool_decide (is_Some (environ h !! key))), h).

(** [os.environ[key]] *)
Definition getenv (key : string) : M string :=
  fun h => match environ h !! key with
           | Some v => (Ok v, h)
           | None => (Raise (KeyError key), h)
           end.

(** [os.environ[key] = value] *)
Definition setenv (key value : string) : M unit :=
  fun h => (Ok tt, mk (<[key := value]> (environ h)) (device_count h)
                      (device h) (group h) (benchmark h)).

(** [torch.cuda.set_device(d)] *)
Definition set_device (d : Z) : M unit :=
  fun h => (Ok tt, mk (environ h) (device_count h) (Some d) (group h) (benchmark h)).

(** [dist.init_process_group(backend=..., world_size=..., rank=...)] *)
Definition init_process_group (backend : string) (world_size rank : Z) : M unit :=
  fun h => (Ok tt, mk (environ h) (device_count h) (device h)
                      (Some (backend, world_size, rank)) (benchmark h)).

(** [torch.backends.cudnn.benchmark = b] *)
Definition set_benchmark (b : bool) : M unit :=
  fun h => (Ok tt, mk (environ h) (device_count h) (device h) (group h) (Some b)).

Definition get_device_count : M Z := fun h => (Ok (device_count h), h).

End Setup.

Declare Scope setup_scope.
Delimit Scope setup_scope with setup.
Notation "x <- c ;; k" := (Setup.bind c (fun x => k))
  (at level 100, c at next level, right associativity) : setup_scope.
Notation "c ;; k" := (Setup.bind c (fun _ => k))
  (at level 100, right associativity) : setup_scope.

Module SetupDistributed.
Import Setup.

Section Platform.

(** [int(s)] on a string, and [subprocess.getoutput(cmd)]. *)
Variable int : string -> Py.result Z.
Variable getoutput : string -> string.

(** [def setup_distributed(backend="nccl", port=None)]; [benchmark_cfg]
    is [cfg.CUDNN.BENCHMARK]. *)
Definition setup_distributed (backend : string) (port : option Z)
    (benchmark_cfg : bool) : M unit :=
  (num_gpus <- get_device_count ;;
   slurm <- has "SLURM_JOB_ID" ;;
   rank_world <-
     (if slurm : bool then
        procid <- getenv "SLURM_PROCID" ;;
        rank <- builtin (int procid) ;;
        ntasks <- getenv "SLURM_NTASKS" ;;
        world_size <- builtin (int ntasks) ;;
        node_list <- getenv "SLURM_NODELIST" ;;
        let addr := getoutput ("scontrol show hostname " +:+ node_list +:+ " | head -n1") in
        match port with
        | Some p => setenv "MASTER_PORT" (Builtins.str p)
        | None =>
            has_port <- has "MASTER_PORT" ;;
            if has_port : bool then ret tt else setenv "MASTER_PORT" "29500"
        end ;;
        has_addr <- has "MASTER_ADDR" ;;
        (if has_addr : bool then ret tt else setenv "MASTER_ADDR" addr) ;;
        setenv "WORLD_SIZE" (Builtins.str world_size) ;;
        local_rank <- builtin (Builtins.mod_ rank num_gpus) ;;
        setenv "LOCAL_RANK" (Builtins.str local_rank) ;;
        setenv "RANK" (Builtins.str rank) ;;
        ret (rank, world_size)
      else
        rank_s <- getenv "RANK" ;;
        rank <- builtin (int rank_s) ;;
        world_s <- getenv "WORLD_SIZE" ;;
        world_size <- builtin (int world_s) ;;
        ret (rank, world_size)) ;;
   d <- builtin (Builtins.mod_ (fst rank_world) num_gpus) ;;
   set_device d ;;
   init_process_group backend (snd rank_world) (fst rank_world) ;;
   set_benchmark benchmark_cfg)%setup.

End Platform.

End SetupDistributed.

(** ** setup_distributed: the environment it leaves *)

Module SetupView.

(** The command whose first output line is the master address. *)
Definition scontrol (node_list : string) : string :=
  "scontrol show hostname " +:+ node_list +:+ " | head -n1".

(** The environment after the master port is settled. *)
Definition with_port (port : option Z) (env : gmap string string) : gmap string string :=
  match port with
  | Some p => <["MASTER_PORT" := Builtins.str p]> env
  | None => match env !! "MASTER_PORT" with
            | Some _ => env
            | None => <["MASTER_PORT" := "29500"]> env
            end
  end.

(** The environment after the master address is settled. *)
Definition with_addr (addr : string) (env : gmap string string) : gmap string string :=
  match env !! "MASTER_ADDR" with
  | Some _ => env
  | None => <["MASTER_ADDR" := addr]> env
  end.

(** The names the Slurm branch may write. *)
Definition written : list string :=
  ["MASTER_PORT"; "MASTER_ADDR"; "WORLD_SIZE"; "LOCAL_RANK"; "RANK"].

(** A stand-in for [int] on strings: decimal digits with an optional
    ["-"]; used to run the model on examples. *)
Definition int_decimal (s : string) : Py.result Z :=
  match NilZero.int_of_string s with
  | Some d => Py.Ok (Z.of_int d)
  | None => Py.Raise (Py.ValueError "invalid literal for int() with base 10")
  end.

(** A stand-in for the output of [scontrol]: a fixed host name. *)
Definition first_host (cmd : string) : string := "node01".

(** A Slurm task: rank 5 of 8 on a host with 4 devices. *)
Definition slurm_task : Setup.host :=
  Setup.mk {[ "SLURM_JOB_ID" := "4242"; "SLURM_PROCID" := "5";
              "SLURM_NTASKS" := "8"; "SLURM_NODELIST" := "node[01-02]" ]}
           4 None None None.

(** A launcher task: rank 1 of 2 on a host with 2 devices. *)
Definition launcher_task : Setup.host :=
  Setup.mk {[ "RANK" := "1"; "WORLD_SIZE" := "2"; "MASTER_PORT" := "29501" ]}
           2 None None None.

End SetupView.

(** ** str.format with one integer field

    [template.format(arg)] for the templates this file builds: text
    without braces around at most one replacement field of the form
    [{:<width>d}], where the width is a decimal number without a leading
    zero (or is absent).  The field is replaced by the decimal form of
    [arg], right-aligned with spaces to the width and never truncated.
    [None] means that the template is outside this fragment. *)

Module Format.

(** Split at the first occurrence of a character. *)
Fixpoint cut (c : ascii) (s : string) : option (string * string) :=
  match s with
  | EmptyString => None
  | String a s' =>
      if Ascii.eqb a c then Some (EmptyString, s')
      else match cut c s' with
           | Some (l, r) => Some (String a l, r)
           | None => None
           end
  end.

Definition has (c : ascii) (s : string) : bool :=
  match cut c s with Some _ => true | None => false end.

Fixpoint spaces (n : nat) : string :=
  match n with
  | O => EmptyString
  | S n' => String " " (spaces n')
  end.

(** Right-align in a field of the given width. *)
Definition rjust (width : nat) (s : string) : string :=
  spaces (width - String.length s) +:+ s.

(** The width of a format specification. *)
Definition width_of (w : string) : option nat :=
  match w with
  | EmptyString => Some O
  | String a _ =>
      if Ascii.eqb a "0" then None
      else option_map (fun d => N.to_nat (N.of_uint d)) (NilEmpty.uint_of_string w)
  end.

Definition format_d (template : string) (arg : Z) : option string :=
  match cut "{" template with
  | None => if has "}" template then None else Some template
  | Some (pre, rest) =>
      match cut "}" rest with
      | None => None
      | Some (spec, post) =>
          if has "}" pre || has "{" spec || has "{" post || has "}" post then None
          else match spec with
               | String ":" body =>
                   match cut "d" body with
                   | Some (w, EmptyString) =>
                       match width_of w with
                       | Some n => Some (pre +:+ rjust n (Builtins.str arg) +:+ post)
                       | None => None
                       end
                   | _ => None
                   end
               | _ => None
               end
      end
  end.

(** No digit is the character [c]. *)
Definition not_a_digit (c : ascii) : Prop :=
  Forall (fun a => Ascii.eqb a c = false)
         ["0"; "1"; "2"; "3"; "4"; "5"; "6"; "7"; "8"; "9"]%char.

(** [sep.join(entries)] *)
Definition join (sep : string) (entries : list string) : string :=
  match entries with
  | [] => EmptyString
  | x :: xs => x +:+ String.concat EmptyString (map (fun e => sep +:+ e) xs)
  end.

End Format.

(** ** class ProgressMeter

    The meters only have to render as text: [str(meter)] is a function of
    the meter that may raise. *)

Module ProgressMeter.

Section Meters.

Variable Meter : Type.
Variable str_meter : Meter -> Py.result string.

Record t : Type := mk {
  batch_fmtstr : string;
  meters : list Meter;
  prefix : string
}.

(** [def _get_batch_fmtstr(self, num_batches)] *)
Definition _get_batch_fmtstr (num_batches : Z) : option string :=
  let num_digits := String.length (Builtins.str (num_batches / 1)) in
  let fmt := "{:" +:+ Builtins.str (Z.of_nat num_digits) +:+ "d}" in
  match Format.format_d fmt num_batches with
  | Some shown => Some ("[" +:+ fmt +:+ "/" +:+ shown +:+ "]")
  | None => None
  end.

(** [def __init__(self, num_batches, meters, prefix="")] *)
Definition init (num_batches : Z) (meters : list Meter) (prefix : string) : option t :=
  match _get_batch_fmtstr num_batches with
  | Some f => Some (mk f meters prefix)
  | None => None
  end.

(** [def display(self, batch)] *)
Definition display (self : t) (batch : Z) : option (Py.M (list string) unit) :=
  match Format.format_d (batch_fmtstr self) batch with
  | None => None
  | Some counter =>
      Some (entries <- Py.for_append [prefix self +:+ counter] (meters self)
                         (fun meter => Py.lift (str_meter meter)) ;;
            Log.print (Format.join " | " entries))%py
  end.

End Meters.

End ProgressMeter.

(** ** IEEE 754 arithmetic

    The value of a float32 tensor element is a binary32 number and a Python
    float is a binary64 number, both as the Standard Library's [SpecFloat]
    has them; every operation rounds to nearest, ties to even. *)

Module Ieee.

(** An integer as a Python float, and as a float32. *)
Definition float64_of_Z (z : Z) : spec_float := binary_normalize 53 1024 z 0 false.
Definition float32_of_Z (z : Z) : spec_float := binary_normalize 24 128 z 0 false.

(** A Python float as a float32: what the framework makes of a Python
    scalar that meets a float32 tensor. *)
Definition to_float32 (d : spec_float) : spec_float :=
  match d with
  | S754_finite s m e => binary_normalize 24 128 (if s then Z.neg m else Z.pos m) e s
  | _ => d
  end.

(** Python's [a / b] for a float [a] and a nonzero integer [b], both given
    by their integer values. *)
Definition truediv (a b : Z) : spec_float :=
  SFdiv 53 1024 (float64_of_Z a) (float64_of_Z b).

Definition add32 (x y : spec_float) : spec_float := SFadd 24 128 x y.
Definition div32 (x y : spec_float) : spec_float := SFdiv 24 128 x y.

(** An element of a float32 tensor times a Python float, as [mul_] stores
    it. *)
Definition mul32 (x c : spec_float) : spec_float := SFmul 24 128 x (to_float32 c).

(** [.float().sum()] of a tensor of booleans, added up from the left. *)
Definition sum_bools (bs : list bool) : spec_float :=
  foldl (fun acc (b : bool) => add32 acc (float32_of_Z (if b then 1 else 0)))
        (float32_of_Z 0) bs.

(** The elementwise sum of one float32 tensor per process, added up in
    rank order. *)
Definition sum_copies (copies : list (list spec_float)) : list spec_float :=
  match copies with
  | [] => []
  | t :: ts => foldl (zip_with add32) t ts
  end.

(** The elementwise sum of one int64 tensor per process; int64 wraps. *)
Definition wrap64 (z : Z) : Z := (z + 2 ^ 63) mod 2 ^ 64 - 2 ^ 63.
Definition sum_int_copies (copies : list (list Z)) : list Z :=
  match copies with
  | [] => []
  | t :: ts => foldl (zip_with (fun a b => wrap64 (a + b))) t ts
  end.

End Ieee.

(** ** scaled_all_reduce: the values it leaves

    What a sum-reduction and [mul_] leave in a tensor depends on the
    tensor's element type: a floating-point tensor is rounded by every
    operation, and an integer tensor cannot be multiplied in place by a
    Python float.  This model keeps the element type, and it takes the
    framework's arithmetic as it comes: the sum a reduction delivers, the
    Python float [1.0 / gpus] and the product [mul_] stores are given
    functions of which no law is assumed.

    The process group is as in [Dist]: every process owns a heap, a call
    of the model is the call made by every process.  A reduction issued
    with [async_op=True] is in flight until its handle is waited on;
    the framework says nothing about a tensor that is written or read
    while a reduction of it is in flight, and the model leaves such a
    tensor undetermined. *)

Module Collective.

Definition loc : Type := nat.

(** A work handle knows its reduction and the tensor it is about. *)
Record work : Type := Work { number : nat; target : loc }.

(** All the entries of a list, if none is missing. *)
Fixpoint gather {A} (os : list (option A)) : option (list A) :=
  match os with
  | [] => Some []
  | o :: os' =>
      match o, gather os' with
      | Some a, Some l => Some (a :: l)
      | _, _ => None
      end
  end.

Section Arithmetic.

(** The elements of a floating-point tensor, and Python's floats. *)
Variable F : Type.
Variable D : Type.
(** What a sum-reduction delivers to every process, given the copies of
    the tensor by rank. *)
Variable sum_floats : list (list F) -> list F.
Variable sum_ints : list (list Z) -> list Z.
(** [1.0 / gpus] for a nonzero [gpus]. *)
Variable one_over : Z -> D.
(** An element times a Python float, in the element's type. *)
Variable times : F -> D -> F.

Inductive tensor : Type :=
| Floating (xs : list F)
| Integral (xs : list Z).

Inductive cell : Type :=
| Settled (t : tensor)
| InFlight (t : tensor) (reduction : nat)
| Undetermined.

Record world : Type := mk {
  heaps : list (gmap loc cell);   (* one heap per process, by rank *)
  next : nat                      (* next work handle *)
}.

(** What each process holds under the reference [l], by rank. *)
Definition column (l : loc) (hs : list (gmap loc cell)) : list (option cell) :=
  map (fun hp => hp !! l) hs.

Definition floats_at_rest (c : option cell) : option (list F) :=
  match c with
  | Some (Settled (Floating xs)) => Some xs
  | _ => None
  end.

(** The copies by rank of a floating-point tensor no reduction is using. *)
Definition floats (l : loc) (hs : list (gmap loc cell)) : option (list (list F)) :=
  gather (map floats_at_rest (column l hs)).

Definition floats_in_flight (r : nat) (c : option cell) : option (list F) :=
  match c with
  | Some (InFlight (Floating xs) r') => if decide (r' = r) then Some xs else None
  | _ => None
  end.

Definition ints_in_flight (r : nat) (c : option cell) : option (list Z) :=
  match c with
  | Some (InFlight (Integral xs) r') => if decide (r' = r) then Some xs else None
  | _ => None
  end.

Definition is_integral (c : option cell) : bool :=
  match c with
  | Some (Settled (Integral _)) | Some (InFlight (Integral _) _) => true
  | _ => false
  end.

(** A reduction takes hold of a tensor at rest; a tensor already in use
    is lost. *)
Definition start (r : nat) (c : cell) : cell :=
  match c with
  | Settled t => InFlight t r
  | _ => Undetermined
  end.

(** A reduction that has finished: if every process had given it a
    tensor of the same kind, every process now holds the sum. *)
Definition finish (r : work) (hs : list (gmap loc cell)) : list (gmap loc cell) :=
  match gather (map (floats_in_flight (number r)) (column (target r) hs)) with
  | Some copies =>
      map (insert (target r) (Settled (Floating (sum_floats copies)))) hs
  | None =>
      match gather (map (ints_in_flight (number r)) (column (target r) hs)) with
      | Some copies =>
          map (insert (target r) (Settled (Integral (sum_ints copies)))) hs
      | None => hs
      end
  end.

(** [tensor.mul_(c)] on one process's copy at rest. *)
Definition scaled (c : D) (x : cell) : cell :=
  match x with
  | Settled (Floating xs) => Settled (Floating (map (fun x => times x c) xs))
  | Settled (Integral xs) => Settled (Integral xs)
  | _ => Undetermined
  end.

(** [torch.distributed.get_world_size()] *)
Definition get_world_size : Py.M world Z :=
  fun w => (Py.Ok (Z.of_nat (length (heaps w))), w).

(** [torch.distributed.all_reduce(tensor, async_op=True)] *)
Definition all_reduce (l : loc) : Py.M world work :=
  fun w => (Py.Ok (Work (next w) l),
            mk (map (alter (start (next w)) l) (heaps w)) (S (next w))).

(** [reduction.wait()] *)
Definition wait (r : work) : Py.M world unit :=
  fun w => (Py.Ok tt, mk (finish r (heaps w)) (next w)).

(** [tensor.mul_(c)] with a Python float [c]: an integer tensor cannot
    take the result and is left as it is. *)
Definition mul_ (l : loc) (c : D) : Py.M world unit :=
  fun w =>
    if existsb is_integral (column l (heaps w))
    then (Py.Raise (Py.RuntimeError
            "result type Float can't be cast to the desired output type Long"), w)
    else (Py.Ok tt, mk (map (alter (scaled c) l) (heaps w)) (next w)).

(** [1.0 / gpus] *)
Definition inverse (gpus : Z) : Py.result D :=
  if decide (gpus = 0) then Py.Raise Py.ZeroDivisionError else Py.Ok (one_over gpus).

(** [def scaled_all_reduce(tensors)] *)
Definition scaled_all_reduce (tensors : list loc) : Py.M world (list loc) :=
  (gpus <- get_world_size ;;
   if decide (gpus = 1) then Py.ret tensors else
   reductions <- Py.for_append [] tensors (fun tensor => all_reduce tensor) ;;
   Py.for_ reductions (fun reduction => wait reduction) ;;
   Py.for_ tensors (fun tensor =>
     c <- Py.lift (inverse gpus) ;;
     mul_ tensor c) ;;
   Py.ret tensors)%py.

(** What the call is to leave of the copies of one floating-point tensor
    in a group of [w] processes: the copies themselves if the process is
    alone, and otherwise, on every process, the sum the reduction
    delivered with every element multiplied by [1.0 / w]. *)
Definition sum_times_inverse (w : nat) (copies : list (list F)) : list (list F) :=
  if decide (w = 1%nat) then copies
  else replicate w (map (fun x => times x (one_over (Z.of_nat w))) (sum_floats copies)).

End Arithmetic.

Arguments Floating {F} xs.
Arguments Integral {F} xs.
Arguments Settled {F} t.
Arguments InFlight {F} t reduction.
Arguments Undetermined {F}.
Arguments mk {F} heaps next.
Arguments heaps {F} w.
Arguments next {F} w.
Arguments column {F} l hs.
Arguments floats {F} l hs.

(** The model at float32 tensors, int64 tensors and Python floats. *)
Definition scaled_all_reduce32 (tensors : list loc)
  : Py.M (world spec_float) (list loc) :=
  scaled_all_reduce spec_float spec_float Ieee.sum_copies Ieee.sum_int_copies
    (Ieee.truediv 1) Ieee.mul32 tensors.

(** Two processes that hold the int64 tensors [1] and [3] under one
    reference, and three that hold the float32 tensors [1.0], [2.0] and
    [4.0]. *)
Definition int64_pair : world spec_float :=
  mk [ {[ 0%nat := Settled (Integral [1]) ]}; {[ 0%nat := Settled (Integral [3]) ]} ]
     0.
Definition float32_triple : world spec_float :=
  mk [ {[ 0%nat := Settled (Floating [Ieee.float32_of_Z 1]) ]};
       {[ 0%nat := Settled (Floating [Ieee.float32_of_Z 2]) ]};
       {[ 0%nat := Settled (Floating [Ieee.float32_of_Z 4]) ]} ]
     0.

End Collective.

(** ** accuracy: the value it returns

    [accuracy] as in [Accuracy], with the arithmetic of its result taken
    as it comes: the float32 sum of a tensor of booleans, the Python float
    [100.0 / batch_size] and the product [mul_] stores are given functions
    of which no law is assumed.  Scores are compared only, and are kept as
    the rationals they are. *)

Module AccuracyValue.

Section Arithmetic.

Variable F : Type.
Variable D : Type.
(** [.float().sum(0, keepdim=True)] of a flat tensor of booleans. *)
Variable float_sum : list bool -> F.
(** [100.0 / batch_size] for a nonzero [batch_size]. *)
Variable hundred_over : nat -> D.
(** An element times a Python float, in the element's type. *)
Variable times : F -> D -> F.

(** [100.0 / batch_size] *)
Definition percent_of (batch_size : nat) : Py.result D :=
  if decide (batch_size = 0%nat) then Py.Raise Py.ZeroDivisionError
  else Py.Ok (hundred_over batch_size).

(** [def accuracy(output, target, topk=(1,))] *)
Definition accuracy (output : list (list Qc)) (target : list nat) (topk : list nat)
  : Py.result (list F) :=
  fst ((maxk <- Py.lift (Accuracy.py_max topk) ;;
        let batch_size := length target in
        pred <- Py.for_append [] output (fun row => Py.lift (Accuracy.topk_row maxk row)) ;;
        let pred := Accuracy.transpose maxk pred in
        expanded <- Py.lift (Accuracy.expand_as target (length output)) ;;
        let correct := map (fun row => zip_with Nat.eqb row expanded) pred in
        Py.for_append [] topk (fun k =>
          let correct_k := float_sum (concat (take k correct)) in
          c <- Py.lift (percent_of batch_size) ;;
          Py.ret (times correct_k c)))%py tt).

End Arithmetic.

(** The function at float32 tensors and Python floats. *)
Definition accuracy32 (output : list (list Qc)) (target : list nat) (topk : list nat)
  : Py.result (list spec_float) :=
  accuracy spec_float spec_float Ieee.sum_bools
    (fun batch_size => Ieee.truediv 100 (Z.of_nat batch_size)) Ieee.mul32
    output target topk.

End AccuracyValue.

(** * Verification *)

(** ** The monad *)

Ltac py_unfold :=
  unfold Py.bind, Py.ret, Py.raise, Py.get, Py.modify, Py.lift in *.

Lemma truediv_ok (a b : Qc) : b ≠ 0%Qc → Py.truediv a b = Py.Ok (a / b)%Qc.
Proof. intros Hb. unfold Py.truediv. by rewrite decide_False. Qed.

Lemma truediv_zero (a : Qc) : Py.truediv a 0%Qc = Py.Raise Py.ZeroDivisionError.
Proof. unfold Py.truediv. by rewrite decide_True. Qed.

Lemma truediv_raises (a b : Qc) :
  Py.truediv a b = Py.Raise Py.ZeroDivisionError ↔ b = 0%Qc.
Proof.
  unfold Py.truediv. destruct (decide (b = 0%Qc)); split; intros; done.
Qed.

(** ** AverageMeter *)

Section AverageMeterProofs.
Import AverageMeter.
Local Open Scope Qc_scope.

Lemma reset_step (m : t) : reset m = (Py.Ok tt, mk (name m) (fmt m) 0 0 0 0).
Proof. reflexivity. Qed.

(** What one call of [update] does to the meter, by cases on the new
    count. *)
Lemma update_step (v n : Qc) (m : t) :
  update v n m =
    let s := sum m + v * n in
    let c := count m + n in
    if decide (c = 0) then (Py.Raise Py.ZeroDivisionError, mk (name m) (fmt m) v (avg m) s c)
    else (Py.Ok tt, mk (name m) (fmt m) v (s / c) s c).
Proof.
  unfold update. py_unfold. cbn. unfold Py.truediv.
  destruct (decide (count m + n = 0)); reflexivity.
Qed.

Lemma updates_from (calls : list (Qc * Qc)) (m : t) :
  counts_nonzero (count m) calls →
  ∃ m', updates calls m = (Py.Ok tt, m') ∧
        name m' = name m ∧ fmt m' = fmt m ∧
        sum m' = sum m + weighted_total calls ∧
        count m' = count m + total_count calls ∧
        (calls ≠ [] → Py.truediv (sum m') (count m') = Py.Ok (avg m')).
Proof.
  revert m. induction calls as [|[v n] calls IH]; intros m Hnz.
  - exists m. cbn. repeat split; try ring. intros H; done.
  - destruct Hnz as [Hc Hnz]. cbn [fst snd] in *.
    unfold updates. cbn [Py.for_]. unfold Py.bind at 1. cbn [fst snd].
    rewrite update_step. cbn zeta. rewrite decide_False by done.
    set (m1 := mk _ _ _ _ _ _).
    destruct (IH m1) as (m' & Hrun & Hname & Hfmt & Hsum & Hcount & Havg); [done|].
    exists m'. unfold updates in Hrun. rewrite Hrun.
    split; [done|]. split; [done|]. split; [done|].
    split; [rewrite Hsum; unfold weighted_total; cbn [sum m1 foldr fst snd]; ring|].
    split; [rewrite Hcount; unfold total_count; cbn [count m1 foldr fst snd]; ring|].
    intros _. destruct calls as [|c calls].
    + cbn in Hrun. injection Hrun as <-. cbn. by apply truediv_ok.
    + by apply Havg.
Qed.

(** Two updates with weights 2 and 2: the sum is 3*2 + 1*2, the count 4,
    the average 2. *)
Example updates_3_1 :
  snd ((reset ;; updates [(Qc_of_Z 3, 2); (1, 2)])%py (init "Loss" ":6.4f"))
    = mk "Loss" ":6.4f" 1 2 (Qc_of_Z 8) (Qc_of_Z 4).
Proof.
  vm_compute. f_equal; apply Qc_is_canon; reflexivity.
Qed.

(** C3 (as amended).  After [reset()], a sequence of calls
    [update(v_1, n_1), ..., update(v_m, n_m)] whose running count
    [n_1 + ... + n_i] is nonzero at every call runs without raising;
    afterwards [sum] is the sum of the [v_i * n_i] and [count] the sum of
    the [n_i]; if at least one call was made, [avg] is [sum / count], and
    with no call at all [avg] is still 0. *)
Theorem updates_after_reset (m : t) (calls : list (Qc * Qc)) :
  counts_nonzero 0 calls →
  ∃ m', (reset ;; updates calls)%py m = (Py.Ok tt, m') ∧
        sum m' = weighted_total calls ∧
        count m' = total_count calls ∧
        match calls with
        | [] => avg m' = 0
        | _ :: _ => Py.truediv (sum m') (count m') = Py.Ok (avg m')
        end.
Proof.
  intros Hnz.
  destruct (updates_from calls (mk (name m) (fmt m) 0 0 0 0) Hnz)
    as (m' & Hrun & _ & _ & Hsum & Hcount & Havg).
  exists m'. split.
  - unfold Py.bind. rewrite reset_step. exact Hrun.
  - cbn [sum count] in *.
    split; [rewrite Hsum; ring|]. split; [rewrite Hcount; ring|].
    destruct calls as [|c calls].
    + cbn in Hrun. by injection Hrun as <-.
    + by apply Havg.
Qed.

Lemma updates_after_reset_witness :
  counts_nonzero 0 [(Qc_of_Z 3, 2); (1, 2)] ∧
  ∃ m', (reset ;; updates [(Qc_of_Z 3, 2); (1, 2)])%py (init "Loss" ":6.4f")
          = (Py.Ok tt, m') ∧
        sum m' = weighted_total [(Qc_of_Z 3, 2); (1, 2)] ∧
        count m' = total_count [(Qc_of_Z 3, 2); (1, 2)] ∧
        Py.truediv (sum m') (count m') = Py.Ok (avg m').
Proof.
  assert (counts_nonzero 0 [(Qc_of_Z 3, 2); (1, 2)]) as Hnz.
  { cbn. split; [|split]; [| |exact I]; intros H; apply (f_equal this) in H;
      vm_compute in H; discriminate H. }
  split; [exact Hnz|].
  exact (updates_after_reset (init "Loss" ":6.4f") [(Qc_of_Z 3, 2); (1, 2)] Hnz).
Defined.

(** C3 as stated fails: after [reset()] and [update(5, 0)] the count is 0,
    so [sum / count] does not exist (the call itself raised). *)
Lemma update_zero_weight_not_tracked :
  ¬ tracks [(Qc_of_Z 5, 0)]
      (snd ((reset ;; updates [(Qc_of_Z 5, 0)])%py (init "Loss" ":6.4f"))).
Proof.
  intros (_ & _ & H). vm_compute in H. discriminate H.
Qed.

(** C4 (as amended).  [reset()] sets the four numeric attributes [val],
    [avg], [sum] and [count] to zero and leaves the string attributes
    [name] and [fmt] as they were. *)
Theorem reset_zeroes_numeric_fields (m : t) :
  reset m = (Py.Ok tt, mk (name m) (fmt m) 0 0 0 0) ∧
  dict (snd (reset m)) !! "val" = Some (ANum 0) ∧
  dict (snd (reset m)) !! "avg" = Some (ANum 0) ∧
  dict (snd (reset m)) !! "sum" = Some (ANum 0) ∧
  dict (snd (reset m)) !! "count" = Some (ANum 0) ∧
  dict (snd (reset m)) !! "name" = Some (AStr (name m)) ∧
  dict (snd (reset m)) !! "fmt" = Some (AStr (fmt m)).
Proof.
  rewrite reset_step. cbn [snd]. unfold dict. cbn [name fmt val avg sum count].
  repeat split; by simplify_map_eq.
Qed.

(** C4 as stated fails: a meter created as [AverageMeter("Loss", ":6.4f")]
    still has the attribute [name] equal to ["Loss"] after [reset()]. *)
Lemma reset_keeps_name :
  ¬ all_attributes_zero (snd (reset (init "Loss" ":6.4f"))).
Proof.
  intros H. specialize (H "name" (AStr "Loss")).
  assert (AStr "Loss" = ANum 0) as Habs; [|discriminate Habs].
  apply H. vm_compute. reflexivity.
Qed.

(** C10.  [update(v, n)] raises [ZeroDivisionError] exactly when the
    accumulated count plus [n] is zero, and returns normally exactly when
    it is not; in particular [update(v, 0)] on a freshly reset meter
    raises [ZeroDivisionError]. *)
Theorem update_divides_by_count (m : t) (v n : Qc) :
  (fst (update v n m) = Py.Raise Py.ZeroDivisionError ↔ count m + n = 0) ∧
  (fst (update v n m) = Py.Ok tt ↔ count m + n ≠ 0) ∧
  fst ((reset ;; update v 0)%py m) = Py.Raise Py.ZeroDivisionError.
Proof.
  split; [|split].
  - rewrite update_step. cbn zeta.
    destruct (decide (count m + n = 0)); cbn; split; intros; done.
  - rewrite update_step. cbn zeta.
    destruct (decide (count m + n = 0)); cbn; split; intros; done.
  - unfold Py.bind. rewrite reset_step, update_step. cbn [sum count].
    cbn zeta. rewrite decide_True; [done|ring].
Qed.

End AverageMeterProofs.

(** ** scaled_all_reduce *)

Section DistProofs.
Import Dist.
Local Open Scope Qc_scope.

Lemma Qc_of_nat_succ_ne_0 (n : nat) : Qc_of_Z (Z.of_nat (S n)) ≠ 0.
Proof.
  rewrite <-Z2Qc_inj_0. intros H. apply Z2Qc_inj in H. lia.
Qed.

(** *** The copies of one tensor across the group *)

Lemma length_reduce (l : loc) (hs : list (gmap loc tensor)) :
  length (reduce l hs) = length hs.
Proof. unfold reduce. apply length_map. Qed.

Lemma length_complete (h : nat) (q q' : list (nat * loc)) (hs hs' : list (gmap loc tensor)) :
  complete h q hs = (q', hs') → length hs' = length hs.
Proof.
  revert hs. induction q as [|[h' l] q IH]; intros hs; cbn.
  - by intros [= _ <-].
  - destruct (decide (h' ≤ h)%nat).
    + intros Hc. rewrite (IH _ Hc). apply length_reduce.
    + by intros [= _ <-].
Qed.

Lemma column_length (l : loc) (hs : list (gmap loc tensor)) :
  length (column l hs) = length hs.
Proof. unfold column. apply length_map. Qed.

Lemma map_constant {A B} (b : B) (xs : list A) :
  map (fun _ => b) xs = replicate (length xs) b.
Proof. induction xs as [|x xs IH]; cbn; congruence. Qed.

Lemma map_replicate {A B} (f : A → B) (n : nat) (x : A) :
  map f (replicate n x) = replicate n (f x).
Proof. induction n as [|n IH]; cbn; congruence. Qed.

Lemma column_reduce (l l' : loc) (hs : list (gmap loc tensor)) :
  column l (reduce l' hs) =
    if decide (l = l') then reduce_column (column l hs) else column l hs.
Proof.
  unfold reduce, reduce_column, column at 1. rewrite map_map.
  destruct (decide (l = l')) as [->|Hne].
  - rewrite column_length, <-map_constant. apply map_ext.
    intros hp. by rewrite lookup_insert_eq.
  - apply map_ext. intros hp. by rewrite lookup_insert_ne.
Qed.

Lemma default_tscale (c : Qc) (o : option tensor) :
  default [] (tscale c <$> o) = tscale c (default [] o).
Proof. destruct o; reflexivity. Qed.

Lemma column_scale (c : Qc) (l l' : loc) (hs : list (gmap loc tensor)) :
  column l (scale c l' hs) =
    if decide (l = l') then scale_column c (column l hs) else column l hs.
Proof.
  unfold scale, scale_column, column. rewrite !map_map.
  destruct (decide (l = l')) as [->|Hne].
  - apply map_ext. intros hp. rewrite lookup_alter_eq.
    apply default_tscale.
  - apply map_ext. intros hp. by rewrite lookup_alter_ne.
Qed.

Lemma column_reduce_all (l : loc) (ls : list loc) (hs : list (gmap loc tensor)) :
  column l (reduce_all ls hs) =
    Nat.iter (count_occ Nat.eq_dec ls l) reduce_column (column l hs).
Proof.
  revert hs. induction ls as [|l' ls IH]; intros hs; [done|].
  unfold reduce_all in *. cbn [foldl]. rewrite IH, column_reduce.
  destruct (decide (l = l')) as [->|Hne].
  - rewrite count_occ_cons_eq by done. by rewrite Nat.iter_succ_r.
  - by rewrite count_occ_cons_neq by done.
Qed.

Lemma column_scale_all (c : Qc) (l : loc) (ls : list loc) (hs : list (gmap loc tensor)) :
  column l (scale_all c ls hs) =
    Nat.iter (count_occ Nat.eq_dec ls l) (scale_column c) (column l hs).
Proof.
  revert hs. induction ls as [|l' ls IH]; intros hs; [done|].
  unfold scale_all in *. cbn [foldl]. rewrite IH, column_scale.
  destruct (decide (l = l')) as [->|Hne].
  - rewrite count_occ_cons_eq by done. by rewrite Nat.iter_succ_r.
  - by rewrite count_occ_cons_neq by done.
Qed.

Lemma length_reduce_all (ls : list loc) (hs : list (gmap loc tensor)) :
  length (reduce_all ls hs) = length hs.
Proof.
  revert hs. induction ls as [|l ls IH]; intros hs; [done|].
  unfold reduce_all in *. cbn [foldl]. rewrite IH. unfold reduce.
  apply length_map.
Qed.

Lemma length_scale_all (c : Qc) (ls : list loc) (hs : list (gmap loc tensor)) :
  length (scale_all c ls hs) = length hs.
Proof.
  revert hs. induction ls as [|l ls IH]; intros hs; [done|].
  unfold scale_all in *. cbn [foldl]. rewrite IH. unfold scale.
  apply length_map.
Qed.

(** *** The three loops *)

Lemma issue_loop (ls : list loc) (ys : list nat) (w : world) :
  Py.for_append ys ls (fun tensor => all_reduce tensor) w =
    (Py.Ok (ys ++ seq (next w) (length ls)),
     mk (heaps w)
        (queue w ++ zip (seq (next w) (length ls)) ls)
        (next w + length ls)
        (trace w ++ zip_with Issue (seq (next w) (length ls)) ls)).
Proof.
  revert ys w. induction ls as [|l ls IH]; intros ys w.
  - cbn. unfold Py.ret. rewrite !app_nil_r, Nat.add_0_r. by destruct w.
  - cbn [Py.for_append]. unfold Py.bind, all_reduce at 1. rewrite IH.
    cbn [heaps queue next trace length seq zip_with].
    rewrite <-!app_assoc. cbn [app]. by rewrite Nat.add_succ_r.
Qed.

Lemma zip_seq_above (h a n : nat) (ls : list loc) :
  (h < a)%nat → Forall (fun e => (h < fst e)%nat) (zip (seq a n) ls).
Proof.
  revert a ls. induction n as [|n IH]; intros a ls Ha; [by constructor|].
  destruct ls as [|l ls]; [by constructor|].
  cbn. constructor; [done|]. apply IH. lia.
Qed.

Lemma complete_stop (h : nat) (q : list (nat * loc)) (hs : list (gmap loc tensor)) :
  Forall (fun e => (h < fst e)%nat) q → complete h q hs = (q, hs).
Proof.
  intros Hq. destruct Hq as [|[h' l] q Hh' Hq]; [done|].
  cbn in *. rewrite decide_False by lia. done.
Qed.

(** With exactly the issued reductions queued, waiting on their handles in
    order completes them in the order of issue. *)
Lemma wait_loop (ls : list loc) (h0 nx : nat) (hs : list (gmap loc tensor))
    (tr : list event) :
  Py.for_ (seq h0 (length ls)) (fun reduction => wait reduction)
      (mk hs (zip (seq h0 (length ls)) ls) nx tr) =
    (Py.Ok tt, mk (reduce_all ls hs) [] nx (tr ++ map Wait (seq h0 (length ls)))).
Proof.
  revert h0 hs tr. induction ls as [|l ls IH]; intros h0 hs tr.
  - cbn. unfold Py.ret. by rewrite app_nil_r.
  - cbn [length seq Py.for_ zip_with]. unfold Py.bind, wait at 1.
    cbn [queue heaps next trace complete].
    rewrite decide_True by lia.
    rewrite complete_stop by (apply zip_seq_above; lia).
    rewrite IH. cbn [map]. rewrite <-app_assoc. done.
Qed.

(** Whatever is queued, the wait loop leaves one [Wait] event per handle
    and touches neither the handle counter nor the size of the group. *)
Lemma wait_loop_trace (handles : list nat) (w : world) :
  ∃ hs q, Py.for_ handles (fun reduction => wait reduction) w =
            (Py.Ok tt, mk hs q (next w) (trace w ++ map Wait handles)) ∧
          length hs = length (heaps w).
Proof.
  revert w. induction handles as [|h handles IH]; intros w.
  - exists (heaps w), (queue w). cbn. unfold Py.ret.
    rewrite app_nil_r. by destruct w.
  - cbn [Py.for_]. unfold Py.bind, wait at 1.
    destruct (complete h (queue w) (heaps w)) as [q1 hs1] eqn:Hc.
    destruct (IH (mk hs1 q1 (next w) (trace w ++ [Wait h])))
      as (hs & q & Hrun & Hlen).
    exists hs, q. rewrite Hrun. cbn [next trace map heaps] in *.
    rewrite <-app_assoc. split; [done|].
    rewrite Hlen. eapply length_complete, Hc.
Qed.

Lemma scale_loop (ls : list loc) (g c : Qc) (w : world) :
  Py.truediv 1 g = Py.Ok c →
  Py.for_ ls (fun tensor =>
      (c <- Py.lift (Py.truediv 1 g) ;; mul_ tensor c)%py) w =
    (Py.Ok tt,
     mk (scale_all c ls (heaps w)) (queue w) (next w) (trace w ++ map Scale ls)).
Proof.
  intros Hc. revert w. induction ls as [|l ls IH]; intros w.
  - cbn. unfold Py.ret. rewrite app_nil_r. by destruct w.
  - cbn [Py.for_]. unfold Py.bind at 1.
    assert ((c <- Py.lift (Py.truediv 1 g) ;; mul_ l c)%py w = mul_ l c w) as ->.
    { unfold Py.bind, Py.lift. by rewrite Hc. }
    unfold mul_ at 1. rewrite IH.
    cbn [heaps queue next trace map]. by rewrite <-app_assoc.
Qed.

(** *** The function *)

Lemma scaled_all_reduce_single (tensors : list loc) (w : world) :
  length (heaps w) = 1%nat →
  scaled_all_reduce tensors w = (Py.Ok tensors, w).
Proof.
  intros Hlen. unfold scaled_all_reduce, Py.bind, get_world_size.
  rewrite Hlen. by rewrite decide_True.
Qed.

Lemma scaled_all_reduce_trace (tensors : list loc) (w : world) (n : nat) :
  length (heaps w) = S (S n) →
  ∃ hs q, scaled_all_reduce tensors w =
            (Py.Ok tensors,
             mk hs q (next w + length tensors)
                (trace w ++ zip_with Issue (seq (next w) (length tensors)) tensors
                         ++ map Wait (seq (next w) (length tensors))
                         ++ map Scale tensors)) ∧
          length hs = S (S n).
Proof.
  intros Hlen. unfold scaled_all_reduce.
  unfold Py.bind at 1. unfold get_world_size at 1. rewrite Hlen.
  rewrite decide_False by lia.
  unfold Py.bind at 1. rewrite issue_loop. cbn [app].
  set (w1 := mk _ _ _ _).
  destruct (wait_loop_trace (seq (next w) (length tensors)) w1)
    as (hs2 & q2 & Hwait & Hlen2).
  unfold Py.bind at 1. rewrite Hwait.
  unfold Py.bind at 1.
  rewrite (scale_loop tensors _ (1 / Qc_of_Z (Z.of_nat (S (S n)))))
    by apply truediv_ok, Qc_of_nat_succ_ne_0.
  unfold Py.ret. cbn [heaps queue next trace w1] in *.
  eexists _, _. split.
  - rewrite <-!app_assoc. reflexivity.
  - rewrite length_scale_all. congruence.
Qed.

Lemma scaled_all_reduce_run (tensors : list loc) (hs : list (gmap loc tensor))
    (nx n : nat) (tr : list event) :
  length hs = S (S n) →
  scaled_all_reduce tensors (mk hs [] nx tr) =
    (Py.Ok tensors,
     mk (scale_all (1 / Qc_of_Z (Z.of_nat (S (S n)))) tensors (reduce_all tensors hs))
        [] (nx + length tensors)
        (tr ++ zip_with Issue (seq nx (length tensors)) tensors
            ++ map Wait (seq nx (length tensors))
            ++ map Scale tensors)).
Proof.
  intros Hlen. unfold scaled_all_reduce.
  unfold Py.bind at 1. unfold get_world_size at 1. cbn [heaps]. rewrite Hlen.
  rewrite decide_False by lia.
  unfold Py.bind at 1. rewrite issue_loop.
  cbn [heaps queue next trace app].
  unfold Py.bind at 1. rewrite wait_loop.
  unfold Py.bind at 1.
  rewrite (scale_loop tensors _ (1 / Qc_of_Z (Z.of_nat (S (S n)))))
    by apply truediv_ok, Qc_of_nat_succ_ne_0.
  unfold Py.ret. cbn [heaps queue next trace]. by rewrite <-!app_assoc.
Qed.

Lemma scaled_all_reduce_frame (tensors : list loc)
    (hs : list (gmap loc tensor)) (nx : nat) (tr : list event) (l : loc) :
  (0 < length hs)%nat →
  l ∉ tensors →
  column l (heaps (snd (scaled_all_reduce tensors (mk hs [] nx tr)))) = column l hs.
Proof.
  intros Hpos Hl. destruct (length hs) as [|[|n]] eqn:Hlen; [lia| |].
  - by rewrite scaled_all_reduce_single.
  - rewrite (scaled_all_reduce_run tensors hs nx n tr Hlen). cbn [snd heaps].
    rewrite column_scale_all, column_reduce_all.
    assert (count_occ Nat.eq_dec tensors l = 0%nat) as ->; [|done].
    apply count_occ_not_In. by rewrite <-list_elem_of_In.
Qed.

(** C6.  When the group has more than one process, the framework calls
    that [scaled_all_reduce(tensors)] makes are, in this order: one
    asynchronous reduction request per input tensor, in input order; then
    one wait per request, in the order of issue; then one scaling per
    input tensor.  So every request is issued before any is waited on, and
    every wait has returned before any tensor is scaled. *)
Theorem issue_all_then_wait_all (tensors : list loc) (w : world) :
  (1 < length (heaps w))%nat →
  trace (snd (scaled_all_reduce tensors w)) =
    trace w ++ zip_with Issue (seq (next w) (length tensors)) tensors
            ++ map Wait (seq (next w) (length tensors))
            ++ map Scale tensors.
Proof.
  intros Hlen. destruct (length (heaps w)) as [|[|n]] eqn:Hw; [lia|lia|].
  destruct (scaled_all_reduce_trace tensors w n Hw) as (hs & q & -> & _).
  reflexivity.
Qed.

Lemma issue_all_then_wait_all_witness :
  (1 < length [ ({[ 0%nat := [Qc_of_Z 1] ]} : gmap loc tensor);
                {[ 0%nat := [Qc_of_Z 3] ]} ])%nat ∧
  trace (snd (scaled_all_reduce [0%nat; 0%nat]
                (mk [ {[ 0%nat := [Qc_of_Z 1] ]}; {[ 0%nat := [Qc_of_Z 3] ]} ]
                    [] 4 []))) =
    [Issue 4 0%nat; Issue 5 0%nat; Wait 4; Wait 5; Scale 0%nat; Scale 0%nat].
Proof.
  split; [cbn; lia|].
  apply (issue_all_then_wait_all [0%nat; 0%nat]
           (mk [ {[ 0%nat := [Qc_of_Z 1] ]}; {[ 0%nat := [Qc_of_Z 3] ]} ] [] 4 [])).
  cbn; lia.
Defined.

End DistProofs.

(** ** scaled_all_reduce: the values it leaves *)

Section CollectiveProofs.
Import Collective.

Context {F D : Type}.
Variable sum_floats : list (list F) → list F.
Variable sum_ints : list (list Z) → list Z.
Variable one_over : Z → D.
Variable times : F → D → F.

Local Abbreviation finish := (finish F sum_floats sum_ints).
Local Abbreviation all_reduce := (all_reduce F).
Local Abbreviation wait := (wait F sum_floats sum_ints).
Local Abbreviation mul_ := (mul_ F D times).
Local Abbreviation scaled := (scaled F D times).
Local Abbreviation start := (start F).

(** *** What every process holds under one reference *)

Lemma column_alter_eq (f : cell F → cell F) (l : loc) (hs : list (gmap loc (cell F))) :
  column l (map (alter f l) hs) = map (fmap f) (column l hs).
Proof.
  unfold column. rewrite !map_map. apply map_ext. intros hp.
  by rewrite lookup_alter_eq.
Qed.

Lemma column_alter_ne (f : cell F → cell F) (l l' : loc) (hs : list (gmap loc (cell F))) :
  l ≠ l' → column l' (map (alter f l) hs) = column l' hs.
Proof.
  intros Hne. unfold column. rewrite map_map. apply map_ext. intros hp.
  by rewrite lookup_alter_ne.
Qed.

Lemma column_insert_eq (c : cell F) (l : loc) (hs : list (gmap loc (cell F))) :
  column l (map (insert l c) hs) = replicate (length hs) (Some c).
Proof.
  unfold column. rewrite map_map. induction hs as [|hp hs IH]; [done|].
  cbn. by rewrite lookup_insert_eq, IH.
Qed.

Lemma column_insert_ne (c : cell F) (l l' : loc) (hs : list (gmap loc (cell F))) :
  l ≠ l' → column l' (map (insert l c) hs) = column l' hs.
Proof.
  intros Hne. unfold column. rewrite map_map. apply map_ext. intros hp.
  by rewrite lookup_insert_ne.
Qed.

Lemma gather_map_Some {A B} (f : A → option B) (g : B → A) (xs : list B) :
  (∀ x, f (g x) = Some x) → gather (map f (map g xs)) = Some xs.
Proof.
  intros Hfg. induction xs as [|x xs IH]; [done|].
  cbn. by rewrite Hfg, IH.
Qed.

Lemma gather_replicate {A} (n : nat) (a : A) :
  gather (replicate n (Some a)) = Some (replicate n a).
Proof. induction n as [|n IH]; [done|]. cbn. by rewrite IH. Qed.

(** The copies of a floating-point tensor at rest are all there is under
    its reference. *)
Lemma floats_column (l : loc) (hs : list (gmap loc (cell F))) (copies : list (list F)) :
  floats l hs = Some copies →
  column l hs = map (fun xs => Some (Settled (Floating xs))) copies.
Proof.
  unfold floats. generalize (column l hs). intros col. revert copies.
  induction col as [|c col IH]; intros copies Hg; cbn in Hg.
  - by inversion Hg.
  - destruct (floats_at_rest F c) as [xs|] eqn:Hc; [|done].
    destruct (gather (map (floats_at_rest F) col)) as [rest|] eqn:Hrest; [|done].
    inversion Hg; subst. cbn. rewrite (IH rest eq_refl). f_equal.
    destruct c as [[[xs'|zs]| |]|]; cbn in Hc; try discriminate. by inversion Hc.
Qed.

(** *** The three loops *)

Lemma finish_length (r : work) (hs : list (gmap loc (cell F))) :
  length (finish r hs) = length hs.
Proof. unfold Collective.finish. repeat case_match; by rewrite ?length_map. Qed.

Lemma finish_other (r : work) (l : loc) (hs : list (gmap loc (cell F))) :
  target r ≠ l → column l (finish r hs) = column l hs.
Proof.
  intros Hne. unfold Collective.finish.
  repeat case_match; by rewrite ?column_insert_ne.
Qed.

Lemma finish_floats (r : work) (hs : list (gmap loc (cell F))) (copies : list (list F)) :
  column (target r) hs
    = map (fun xs => Some (InFlight (Floating xs) (number r))) copies →
  column (target r) (finish r hs)
    = replicate (length hs) (Some (Settled (Floating (sum_floats copies)))).
Proof.
  intros Hcol. unfold Collective.finish. rewrite Hcol.
  rewrite gather_map_Some.
  - apply column_insert_eq.
  - intros xs. cbn. by rewrite decide_True.
Qed.

Lemma issue_in_flight (ls : list loc) (acc : list work) (hs : list (gmap loc (cell F)))
    (nx : nat) :
  ∃ hs',
    Py.for_append acc ls (fun tensor => all_reduce tensor) (mk hs nx)
      = (Py.Ok (acc ++ zip_with Work (seq nx (length ls)) ls),
         mk hs' (nx + length ls)) ∧
    length hs' = length hs ∧
    (∀ l, l ∉ ls → column l hs' = column l hs) ∧
    (NoDup ls → ∀ i l, ls !! i = Some l →
       column l hs' = map (fmap (start (nx + i))) (column l hs)).
Proof.
  revert acc hs nx. induction ls as [|l0 ls IH]; intros acc hs nx.
  - exists hs. cbn. unfold Py.ret. rewrite app_nil_r, Nat.add_0_r. done.
  - destruct (IH (acc ++ [Work nx l0]) (map (alter (start nx) l0) hs) (S nx))
      as (hs' & Hrun & Hlen & Hout & Hin).
    exists hs'. split; [|split; [|split]].
    + cbn [Py.for_append]. unfold Py.bind, Collective.all_reduce at 1.
      cbn [heaps next]. rewrite Hrun. cbn [length seq zip_with].
      rewrite <-app_assoc. cbn [app]. do 2 f_equal. lia.
    + by rewrite Hlen, length_map.
    + intros l Hl. apply not_elem_of_cons in Hl as [Hne Hl].
      rewrite Hout by done. by apply column_alter_ne.
    + intros Hnd i l Hi. apply NoDup_cons in Hnd as [Hl0 Hnd].
      destruct i as [|i]; cbn in Hi.
      * inversion Hi; subst. rewrite Hout by done.
        rewrite Nat.add_0_r. apply column_alter_eq.
      * rewrite (Hin Hnd i l Hi).
        rewrite column_alter_ne.
        -- do 3 f_equal. lia.
        -- intros ->. apply Hl0. by eapply list_elem_of_lookup_2.
Qed.

Lemma wait_settles (rs : list work) (hs : list (gmap loc (cell F))) (nx : nat) :
  ∃ hs',
    Py.for_ rs (fun reduction => wait reduction) (mk hs nx) = (Py.Ok tt, mk hs' nx) ∧
    length hs' = length hs ∧
    (∀ l, l ∉ map target rs → column l hs' = column l hs) ∧
    (NoDup (map target rs) → ∀ r copies, r ∈ rs →
       column (target r) hs
         = map (fun xs => Some (InFlight (Floating xs) (number r))) copies →
       column (target r) hs'
         = replicate (length hs) (Some (Settled (Floating (sum_floats copies))))).
Proof.
  revert hs. induction rs as [|r0 rs IH]; intros hs.
  - exists hs. split; [done|]. split; [done|]. split; [done|].
    intros _ r copies Hr. by apply elem_of_nil in Hr.
  - destruct (IH (finish r0 hs)) as (hs' & Hrun & Hlen & Hout & Hin).
    exists hs'. split; [|split; [|split]].
    + cbn [Py.for_]. unfold Py.bind, Collective.wait at 1. cbn [heaps next].
      by rewrite Hrun.
    + by rewrite Hlen, finish_length.
    + intros l Hl. cbn [map] in Hl. apply not_elem_of_cons in Hl as [Hne Hl].
      rewrite Hout by done. by apply finish_other.
    + intros Hnd r copies Hr Hcol. cbn [map] in Hnd.
      apply NoDup_cons in Hnd as [Hr0 Hnd].
      apply elem_of_cons in Hr as [->|Hr].
      * rewrite Hout by done. by apply finish_floats.
      * assert (target r0 ≠ target r) as Hne.
        { intros Heq. apply Hr0. rewrite Heq.
          apply list_elem_of_In, in_map, list_elem_of_In, Hr. }
        rewrite (Hin Hnd r copies Hr).
        -- by rewrite finish_length.
        -- by rewrite finish_other.
Qed.

Lemma scale_settled (ls : list loc) (gpus : Z) (hs : list (gmap loc (cell F))) (nx : nat) :
  gpus ≠ 0 →
  NoDup ls →
  (∀ l, l ∈ ls → existsb (is_integral F) (column l hs) = false) →
  ∃ hs',
    Py.for_ ls (fun tensor =>
      c <- Py.lift (inverse D one_over gpus) ;; mul_ tensor c)%py (mk hs nx)
      = (Py.Ok tt, mk hs' nx) ∧
    length hs' = length hs ∧
    (∀ l, l ∉ ls → column l hs' = column l hs) ∧
    (∀ l, l ∈ ls → column l hs' = map (fmap (scaled (one_over gpus))) (column l hs)).
Proof.
  intros Hg. revert hs. induction ls as [|l0 ls IH]; intros hs Hnd Hfloat.
  - exists hs. split; [done|]. split; [done|]. split; [done|].
    intros l Hl. by apply elem_of_nil in Hl.
  - apply NoDup_cons in Hnd as [Hl0 Hnd].
    destruct (IH (map (alter (scaled (one_over gpus)) l0) hs) Hnd)
      as (hs' & Hrun & Hlen & Hout & Hin).
    { intros l Hl. rewrite column_alter_ne; [apply Hfloat; by right|].
      intros ->. done. }
    exists hs'. split; [|split; [|split]].
    + cbn [Py.for_]. unfold Py.bind at 1. unfold Py.bind at 1.
      unfold Py.lift at 1, inverse at 1. rewrite decide_False by done.
      unfold Collective.mul_ at 1. cbn [heaps next].
      rewrite (Hfloat l0) by (by left). exact Hrun.
    + by rewrite Hlen, length_map.
    + intros l Hl. apply not_elem_of_cons in Hl as [Hne Hl].
      rewrite Hout by done. by apply column_alter_ne.
    + intros l Hl. apply elem_of_cons in Hl as [->|Hl].
      * rewrite Hout by done. apply column_alter_eq.
      * rewrite (Hin l Hl). rewrite column_alter_ne; [done|].
        intros ->. done.
Qed.

(** *** The function *)

Lemma scaled_all_reduce_alone (tensors : list loc) (w : world F) :
  length (heaps w) = 1%nat →
  scaled_all_reduce F D sum_floats sum_ints one_over times tensors w
    = (Py.Ok tensors, w).
Proof.
  intros H1. unfold scaled_all_reduce, Py.bind, get_world_size.
  rewrite H1. by rewrite decide_True.
Qed.

Lemma targets_of_works (nx : nat) (ls : list loc) :
  map target (zip_with Work (seq nx (length ls)) ls) = ls.
Proof.
  revert nx. induction ls as [|l ls IH]; intros nx; [done|].
  cbn. by rewrite IH.
Qed.

Lemma work_of_tensor (nx i : nat) (ls : list loc) (l : loc) :
  ls !! i = Some l → Work (nx + i) l ∈ zip_with Work (seq nx (length ls)) ls.
Proof.
  revert nx i. induction ls as [|l0 ls IH]; intros nx i Hi; [done|].
  destruct i as [|i]; cbn in Hi.
  - inversion Hi; subst. rewrite Nat.add_0_r. cbn. by left.
  - cbn. right. replace (nx + S i)%nat with (S nx + i)%nat by lia. by apply IH.
Qed.

Lemma existsb_replicate {A} (f : A → bool) (n : nat) (a : A) :
  f a = false → existsb f (replicate n a) = false.
Proof. intros Ha. induction n as [|n IH]; [done|]. cbn. by rewrite Ha, IH. Qed.

Lemma fmap_replicate_cell {A B} (f : A → B) (n : nat) (a : A) :
  map (fmap f) (replicate n (Some a)) = replicate n (Some (f a)).
Proof. induction n as [|n IH]; [done|]. cbn. by rewrite IH. Qed.

(** C5 (as amended).  For a list of distinct floating-point tensors, none
    of them in use by a reduction, and a group of at least one process,
    [scaled_all_reduce] returns the list it was given and leaves of every
    listed tensor, on every process, the sum the reduction delivers with
    each element multiplied by [1.0 / w]; a process that is alone keeps
    its tensors as they are. *)
Theorem scaled_all_reduce_sum_times_inverse (tensors : list loc)
    (hs : list (gmap loc (cell F))) (nx : nat) :
  NoDup tensors →
  Forall (fun l => is_Some (floats l hs)) tensors →
  hs ≠ [] →
  fst (scaled_all_reduce F D sum_floats sum_ints one_over times tensors (mk hs nx))
    = Py.Ok tensors ∧
  Forall (fun l =>
    floats l (heaps (snd (scaled_all_reduce F D sum_floats sum_ints one_over times
                            tensors (mk hs nx))))
      = sum_times_inverse F D sum_floats one_over times (length hs) <$> floats l hs)
    tensors.
Proof.
  intros Hnd Hfl Hne.
  destruct (decide (length hs = 1%nat)) as [H1|H1].
  { rewrite scaled_all_reduce_alone by done. cbn [fst snd heaps].
    split; [done|]. eapply Forall_impl; [exact Hfl|].
    intros l [copies Hl]. rewrite Hl. cbn. unfold sum_times_inverse.
    by rewrite decide_True. }
  assert (Z.of_nat (length hs) ≠ 0) as Hw0 by (destruct hs; [done|cbn; lia]).
  destruct (issue_in_flight tensors [] hs nx) as (hs1 & Hrun1 & Hlen1 & _ & Hin1).
  destruct (wait_settles (zip_with Work (seq nx (length tensors)) tensors) hs1
              (nx + length tensors)) as (hs2 & Hrun2 & Hlen2 & _ & Hin2).
  rewrite targets_of_works in Hin2.
  assert (∀ l copies, l ∈ tensors → floats l hs = Some copies →
            column l hs2
              = replicate (length hs) (Some (Settled (Floating (sum_floats copies)))))
    as Hsum.
  { intros l copies Hl Hcopies. apply list_elem_of_lookup_1 in Hl as [i Hi].
    rewrite <-Hlen1.
    apply (Hin2 Hnd (Work (nx + i) l) copies (work_of_tensor nx i tensors l Hi)).
    cbn [target number]. rewrite (Hin1 Hnd i l Hi), (floats_column l hs copies Hcopies).
    by rewrite map_map. }
  destruct (scale_settled tensors (Z.of_nat (length hs)) hs2 (nx + length tensors) Hw0 Hnd)
    as (hs3 & Hrun3 & Hlen3 & _ & Hin3).
  { intros l Hl. rewrite Forall_forall in Hfl.
    destruct (Hfl l Hl) as [copies Hcopies].
    rewrite (Hsum l copies Hl Hcopies). by apply existsb_replicate. }
  assert (scaled_all_reduce F D sum_floats sum_ints one_over times tensors (mk hs nx)
            = (Py.Ok tensors, mk hs3 (nx + length tensors))) as Hrun.
  { unfold scaled_all_reduce. unfold Py.bind at 1, get_world_size at 1.
    cbn [heaps]. rewrite decide_False by lia.
    unfold Py.bind at 1. rewrite Hrun1. cbn [app].
    unfold Py.bind at 1. rewrite Hrun2.
    unfold Py.bind at 1. rewrite Hrun3. done. }
  rewrite Hrun. cbn [fst snd heaps]. split; [done|].
  apply Forall_forall. intros l Hl. rewrite Forall_forall in Hfl.
  destruct (Hfl l Hl) as [copies Hcopies]. rewrite Hcopies. cbn.
  unfold floats at 1. rewrite (Hin3 l Hl), (Hsum l copies Hl Hcopies).
  rewrite fmap_replicate_cell. cbn [Collective.scaled].
  rewrite map_replicate. cbn [floats_at_rest]. rewrite gather_replicate.
  unfold sum_times_inverse. by rewrite decide_False.
Qed.

End CollectiveProofs.

(** C5 as stated fails on two counts.  Two processes hold the int64
    tensors [1] and [3]: the reductions complete, then [mul_] raises
    [RuntimeError], and both are left holding the sum [4], not [4 / 2].
    Three processes hold the float32 tensors [1.0], [2.0] and [4.0]: the
    call returns, and every process holds [7.0] times the float32 nearest
    [1.0 / 3], which is 2.3333334922790527, one unit in the last place
    above the float32 quotient [7.0 / 3.0] = 2.3333332538604736. *)
Lemma scaled_all_reduce_not_sum_over_w :
  fst (Collective.scaled_all_reduce32 [0%nat] Collective.int64_pair)
    = Py.Raise (Py.RuntimeError
        "result type Float can't be cast to the desired output type Long") ∧
  Collective.column 0%nat
      (Collective.heaps (snd (Collective.scaled_all_reduce32 [0%nat]
                                Collective.int64_pair)))
    = replicate 2 (Some (Collective.Settled (Collective.Integral [4]))) ∧
  fst (Collective.scaled_all_reduce32 [0%nat] Collective.float32_triple)
    = Py.Ok [0%nat] ∧
  Collective.column 0%nat
      (Collective.heaps (snd (Collective.scaled_all_reduce32 [0%nat]
                                Collective.float32_triple)))
    = replicate 3 (Some (Collective.Settled
                           (Collective.Floating [S754_finite false 9786710 (-22)]))) ∧
  Ieee.div32 (Ieee.float32_of_Z 7) (Ieee.float32_of_Z 3)
    = S754_finite false 9786709 (-22).
Proof. repeat split; vm_compute; reflexivity. Qed.

(** A tensor that is listed twice has two reductions in flight at once;
    nothing is said of what it holds afterwards. *)
Example listed_twice_undetermined :
  Collective.column 0%nat
      (Collective.heaps (snd (Collective.scaled_all_reduce32 [0%nat; 0%nat]
                                Collective.float32_triple)))
    = replicate 3 (Some Collective.Undetermined).
Proof. vm_compute. reflexivity. Qed.

Lemma scaled_all_reduce_sum_times_inverse_witness :
  NoDup [0%nat] ∧
  Forall (fun l => is_Some (Collective.floats l
                              (Collective.heaps Collective.float32_triple))) [0%nat] ∧
  Collective.heaps Collective.float32_triple ≠ [] ∧
  fst (Collective.scaled_all_reduce spec_float spec_float Ieee.sum_copies
         Ieee.sum_int_copies (Ieee.truediv 1) Ieee.mul32 [0%nat]
         (Collective.mk (Collective.heaps Collective.float32_triple) 0))
    = Py.Ok [0%nat] ∧
  Forall (fun l =>
    Collective.floats l
      (Collective.heaps (snd (Collective.scaled_all_reduce spec_float spec_float
         Ieee.sum_copies Ieee.sum_int_copies (Ieee.truediv 1) Ieee.mul32 [0%nat]
         (Collective.mk (Collective.heaps Collective.float32_triple) 0))))
      = Collective.sum_times_inverse spec_float spec_float Ieee.sum_copies
          (Ieee.truediv 1) Ieee.mul32
          (length (Collective.heaps Collective.float32_triple))
          <$> Collective.floats l (Collective.heaps Collective.float32_triple))
    [0%nat].
Proof.
  assert (NoDup [0%nat]) as H1 by (apply NoDup_singleton).
  assert (Forall (fun l => is_Some (Collective.floats l
            (Collective.heaps Collective.float32_triple))) [0%nat]) as H2.
  { apply Forall_cons; split; [|by apply Forall_nil]. vm_compute. by eexists. }
  assert (Collective.heaps Collective.float32_triple ≠ []) as H3 by discriminate.
  split; [exact H1|]. split; [exact H2|]. split; [exact H3|].
  exact (scaled_all_reduce_sum_times_inverse Ieee.sum_copies Ieee.sum_int_copies
           (Ieee.truediv 1) Ieee.mul32 [0%nat]
           (Collective.heaps Collective.float32_triple) 0 H1 H2 H3).
Defined.

(** ** accuracy *)

Section AccuracyProofs.
Import Accuracy.
Local Open Scope Qc_scope.

(** *** Sorting by score *)

Lemma in_insert_desc (x y : Qc * nat) (l : list (Qc * nat)) :
  In y (insert_desc x l) ↔ y = x ∨ In y l.
Proof.
  induction l as [|z l IH]; cbn.
  - intuition congruence.
  - destruct (decide (fst z ≤ fst x)); cbn; [intuition congruence|].
    rewrite IH. intuition congruence.
Qed.

Lemma in_sort_desc (y : Qc * nat) (l : list (Qc * nat)) :
  In y (sort_desc l) ↔ In y l.
Proof.
  induction l as [|x l IH]; cbn; [done|].
  rewrite in_insert_desc, IH. intuition congruence.
Qed.

(** An entry whose score is strictly above every other entry's comes
    first. *)
Lemma sort_desc_head (x : Qc * nat) (l : list (Qc * nat)) :
  In x l →
  (∀ y, In y l → y ≠ x → fst y < fst x) →
  ∃ tl, sort_desc l = x :: tl.
Proof.
  induction l as [|a l IH]; intros Hin Hmax; [done|].
  cbn [sort_desc foldr]. fold (sort_desc l).
  destruct (decide (a = x)) as [->|Hne].
  - destruct (sort_desc l) as [|y tl] eqn:Hs; [by exists []|].
    cbn. exists (y :: tl). rewrite decide_True; [done|].
    destruct (decide (y = x)) as [->|Hy]; [apply Qcle_refl|].
    apply Qclt_le_weak, Hmax; [|done].
    right. apply in_sort_desc. rewrite Hs. by left.
  - destruct Hin as [Ha|Hin]; [done|].
    destruct IH as [tl Htl]; [done|intros y Hy; apply Hmax; by right|].
    rewrite Htl. cbn. rewrite decide_False.
    + by eexists.
    + apply Qclt_not_le, Hmax; [by left|done].
Qed.

Lemma zip_map_self {A} (f : nat → A) (l : list nat) :
  zip (map f l) l = map (fun j => (f j, j)) l.
Proof. induction l as [|j l IH]; cbn; congruence. Qed.

Lemma length_one_hot (classes c : nat) : length (one_hot classes c) = classes.
Proof. unfold one_hot. by rewrite length_map, length_seq. Qed.

(** The top-1 class of a one-hot row is its hot class. *)
Lemma topk_row_one_hot (classes c : nat) :
  (c < classes)%nat → topk_row 1 (one_hot classes c) = Py.Ok [c].
Proof.
  intros Hc. unfold topk_row. rewrite length_one_hot.
  rewrite decide_True by lia.
  unfold one_hot at 1. rewrite zip_map_self.
  destruct (sort_desc_head (1, c)
              (map (fun j => (if decide (j = c) then 1 else 0, j)) (seq 0 classes)))
    as [tl ->].
  - apply in_map_iff. exists c. rewrite decide_True by done.
    split; [done|]. apply in_seq. lia.
  - intros y [j [<- _]]%in_map_iff Hy. cbn.
    destruct (decide (j = c)) as [->|_]; [done|]. reflexivity.
  - reflexivity.
Qed.

(** *** The function *)

(** Ties go to the lower index; two of three predictions right is two
    thirds of 100. *)
Example topk_row_ties :
  topk_row 3 [0; Qc_of_Z 5; Qc_of_Z 5; Qc_of_Z 9] = Py.Ok [3; 1; 2]%nat.
Proof. reflexivity. Qed.

Example accuracy_two_of_three :
  accuracy [[0; 1]; [1; 0]; [0; 1]] [1; 1; 1]%nat [1%nat]
    = Py.Ok [Qc_of_Z 200 / Qc_of_Z 3].
Proof.
  vm_compute. reflexivity.
Qed.

(** A loop whose body only computes: it appends the results in order and
    leaves the store alone. *)
Lemma for_append_pure {S A B} (f : A → Py.result B) (xs : list A) (zs ys : list B) (s : S) :
  Forall2 (fun x z => f x = Py.Ok z) xs zs →
  Py.for_append ys xs (fun x => Py.lift (f x)) s = (Py.Ok (ys ++ zs), s).
Proof.
  intros H. revert ys. induction H as [|x z xs zs Hx _ IH]; intros ys.
  - cbn. unfold Py.ret. by rewrite app_nil_r.
  - cbn [Py.for_append]. unfold Py.bind, Py.lift at 1. rewrite Hx, IH.
    by rewrite <-app_assoc.
Qed.

(** The first element whose body raises ends the loop with that
    exception; the elements after it are never looked at. *)
Lemma for_append_first_raise {S A B} (f : A → Py.result B) (good : list A) (bad : A)
    (later : list A) (zs ys : list B) (e : Py.exn) (s : S) :
  Forall2 (fun x z => f x = Py.Ok z) good zs →
  f bad = Py.Raise e →
  Py.for_append ys (good ++ bad :: later) (fun x => Py.lift (f x)) s = (Py.Raise e, s).
Proof.
  intros H Hbad. revert ys. induction H as [|x z xs zs Hx _ IH]; intros ys.
  - cbn [app Py.for_append]. unfold Py.bind, Py.lift at 1. by rewrite Hbad.
  - cbn [app Py.for_append]. unfold Py.bind, Py.lift at 1. by rewrite Hx, IH.
Qed.

Lemma certain_topk (output : list (list Qc)) (target : list nat) :
  certain_and_right output target →
  Forall2 (fun row z => topk_row 1 row = Py.Ok z) output (map (fun c => [c]) target).
Proof.
  induction 1 as [|row c output target [Hc Hrow] _ IH]; cbn; constructor; [|done].
  rewrite Hrow. by apply topk_row_one_hot.
Qed.

Lemma transpose_singletons (target : list nat) :
  transpose 1 (map (fun c => [c]) target) = [target].
Proof.
  unfold transpose. cbn [seq map]. f_equal. rewrite map_map. cbn.
  apply map_id.
Qed.

End AccuracyProofs.

(** ** accuracy: the value it returns *)

Section AccuracyValueProofs.
Import Accuracy.

Context {F D : Type}.
Variable float_sum : list bool → F.
Variable hundred_over : nat → D.
Variable times : F → D → F.

Lemma all_equal (target : list nat) :
  zip_with Nat.eqb target target = replicate (length target) true.
Proof.
  induction target as [|c target IH]; [done|].
  cbn. by rewrite Nat.eqb_refl, IH.
Qed.

(** C7 (as amended).  For every non-empty batch in which each prediction
    is one-hot-certain and its hot class is the corresponding target,
    [accuracy(output, target, topk=(1,))] counts every prediction as
    right and returns the single value that [mul_] makes of the float32
    sum of [batch_size] ones and the Python float [100.0 / batch_size]. *)
Theorem accuracy_certain_batch_product (output : list (list Qc)) (target : list nat) :
  output ≠ [] →
  certain_and_right output target →
  AccuracyValue.accuracy F D float_sum hundred_over times output target [1%nat]
    = Py.Ok [times (float_sum (replicate (length target) true))
                   (hundred_over (length target))].
Proof.
  intros Hne Hcr.
  assert (length output = length target) as Hlen by (by eapply Forall2_length).
  assert (length target ≠ 0%nat) as Hb.
  { rewrite <-Hlen. by destruct output. }
  unfold AccuracyValue.accuracy. cbn [py_max foldl].
  unfold Py.bind at 1. unfold Py.lift at 1.
  unfold Py.bind at 1.
  rewrite (for_append_pure (topk_row 1) output (map (fun c => [c]) target))
    by (by apply certain_topk).
  cbn [app]. rewrite transpose_singletons.
  unfold Py.bind at 1. unfold Py.lift at 1. unfold expand_as.
  rewrite decide_True by congruence.
  cbn [map Py.for_append]. unfold Py.bind at 1. unfold Py.bind at 1.
  unfold Py.lift, AccuracyValue.percent_of. rewrite decide_False by done.
  unfold Py.ret. cbn [fst app take concat].
  by rewrite app_nil_r, all_equal.
Qed.

End AccuracyValueProofs.

Lemma certain_replicate (classes c n : nat) :
  (c < classes)%nat →
  Accuracy.certain_and_right (replicate n (Accuracy.one_hot classes c)) (replicate n c).
Proof.
  intros Hc. induction n as [|n IH]; [constructor|].
  cbn. constructor; [|exact IH]. by rewrite length_one_hot.
Qed.

(** For a batch of 64 the product is 100.0 itself. *)
Example accuracy32_batch_of_64 :
  AccuracyValue.accuracy32 (replicate 64 (Accuracy.one_hot 2 1)) (replicate 64 1%nat)
      [1%nat]
    = Py.Ok [Ieee.float32_of_Z 100].
Proof. vm_compute. reflexivity. Qed.

Lemma accuracy_certain_batch_product_witness :
  [[0%Qc; 1%Qc]; [1%Qc; 0%Qc]; [0%Qc; 1%Qc]] ≠ [] ∧
  Accuracy.certain_and_right [[0%Qc; 1%Qc]; [1%Qc; 0%Qc]; [0%Qc; 1%Qc]]
                             [1%nat; 0%nat; 1%nat] ∧
  AccuracyValue.accuracy spec_float spec_float Ieee.sum_bools
      (fun batch_size => Ieee.truediv 100 (Z.of_nat batch_size)) Ieee.mul32
      [[0%Qc; 1%Qc]; [1%Qc; 0%Qc]; [0%Qc; 1%Qc]] [1%nat; 0%nat; 1%nat] [1%nat]
    = Py.Ok [Ieee.mul32 (Ieee.sum_bools (replicate (length [1%nat; 0%nat; 1%nat]) true))
                        (Ieee.truediv 100 (Z.of_nat (length [1%nat; 0%nat; 1%nat])))].
Proof.
  assert (Accuracy.certain_and_right [[0%Qc; 1%Qc]; [1%Qc; 0%Qc]; [0%Qc; 1%Qc]]
                                     [1%nat; 0%nat; 1%nat]) as Hcr.
  { repeat constructor; cbn; lia. }
  split; [discriminate|]. split; [exact Hcr|].
  apply (accuracy_certain_batch_product Ieee.sum_bools
           (fun batch_size => Ieee.truediv 100 (Z.of_nat batch_size)) Ieee.mul32
           [[0%Qc; 1%Qc]; [1%Qc; 0%Qc]; [0%Qc; 1%Qc]] [1%nat; 0%nat; 1%nat]);
    [discriminate|exact Hcr].
Defined.

(** C7 as stated fails on two counts.  The empty batch meets the condition
    on every prediction, and there [100.0 / batch_size] divides by zero
    and the call raises.  A batch of 45 predictions that are all certain
    and right is given 100.00000762939453, one unit in the last place
    above 100.0: the float32 nearest [100.0 / 45] times [45.0] rounds
    up. *)
Lemma accuracy_certain_batch_not_100 :
  Accuracy.certain_and_right [] [] ∧
  AccuracyValue.accuracy32 [] [] [1%nat] = Py.Raise Py.ZeroDivisionError ∧
  Accuracy.certain_and_right (replicate 45 (Accuracy.one_hot 2 1)) (replicate 45 1%nat) ∧
  AccuracyValue.accuracy32 (replicate 45 (Accuracy.one_hot 2 1)) (replicate 45 1%nat)
      [1%nat]
    = Py.Ok [S754_finite false 13107201 (-17)] ∧
  Ieee.float32_of_Z 100 = S754_finite false 13107200 (-17).
Proof.
  split; [constructor|]. split; [reflexivity|].
  split; [apply certain_replicate; lia|].
  split; vm_compute; reflexivity.
Qed.

(** ** get_lr_scheduler *)

Section SchedProofs.
Import Sched.

(** The recogniser accepts the well-formed header of line 203 and a
    well-formed keyword argument, and rejects the two places where the
    text of the function departs from the grammar. *)
Lemma line_203_accepted : accepts_if_header line_203 = true.
Proof. reflexivity. Qed.

Lemma keyword_argument_accepted :
  accepts_argument [NAME "gamma"; OP "="; NUMBER "0.1"] = true.
Proof. reflexivity. Qed.

Lemma line_201_rejected : accepts_if_header line_201 = false.
Proof. reflexivity. Qed.

Lemma line_205_argument_rejected : accepts_argument line_205_argument = false.
Proof. reflexivity. Qed.

Lemma text_rejected : compiles = false.
Proof. reflexivity. Qed.

(** C1 (the code departs from it).  With the policy ["cos"] and with the
    policy ["steps"], [get_lr_scheduler] returns no scheduler: line 201
    spells the comparison with [=] and has no colon, and line 205 assigns
    to [cfg.OPTIM.LR_MULT] inside the argument list, so Python rejects the
    text with [SyntaxError]. *)
Theorem get_lr_scheduler_cos_steps_rejected
    (Optimizer : Type) (optimizer : Optimizer) (max_epoch : Z) (lr_mult : Qc) :
  get_lr_scheduler (mk_optim "cos" max_epoch lr_mult) optimizer
    = Py.Raise (Py.SyntaxError "invalid syntax") ∧
  get_lr_scheduler (mk_optim "steps" max_epoch lr_mult) optimizer
    = Py.Raise (Py.SyntaxError "invalid syntax").
Proof. split; reflexivity. Qed.

(** C2 (the code departs from it).  Whatever the policy string,
    [get_lr_scheduler] ends in [SyntaxError]; the [ValueError] of its
    [else] branch is never raised. *)
Theorem get_lr_scheduler_never_value_error
    (Optimizer : Type) (cfg : optim) (optimizer : Optimizer) :
  get_lr_scheduler cfg optimizer = Py.Raise (Py.SyntaxError "invalid syntax") ∧
  get_lr_scheduler cfg optimizer ≠ Py.Raise (Py.ValueError "not supported").
Proof. split; [reflexivity|discriminate]. Qed.

End SchedProofs.

(** ** save_checkpoint *)

Section CkptProofs.
Import Ckpt.
Context {State : Type}.

Lemma save_checkpoint_plain (state : State) (filename : string)
    (fs : gmap (list string) (file State)) :
  save_checkpoint state false filename fs =
    (Py.Ok tt, <[resolve filename := Pickled state]> fs).
Proof. reflexivity. Qed.

Lemma save_checkpoint_best (state : State) (filename : string)
    (fs : gmap (list string) (file State)) :
  resolve filename ≠ resolve "ckpt_best.pth.tar" →
  save_checkpoint state true filename fs =
    (Py.Ok tt,
     <[resolve "ckpt_best.pth.tar" := Pickled state]>
       (<[resolve filename := Pickled state]> fs)).
Proof.
  intros Hne. unfold save_checkpoint, torch_save, copyfile. py_unfold.
  rewrite lookup_insert_eq. by rewrite decide_False.
Qed.

(** C8 (the code departs from it).  Called with the default file name,
    [save_checkpoint] writes the pickled state to [ckpt.pth.tar] in the
    working directory and leaves [./checkpoint/ckpt.pth.tar] as it was;
    only the best copy behaves as described: written when [is_best] is
    true, left alone when it is false. *)
Theorem save_checkpoint_ignores_path (state : State) (is_best : bool)
    (fs : gmap (list string) (file State)) :
  let fs' := snd (save_checkpoint state is_best "ckpt.pth.tar" fs) in
  fs' !! resolve "ckpt.pth.tar" = Some (Pickled state) ∧
  fs' !! resolve "./checkpoint/ckpt.pth.tar"
    = fs !! resolve "./checkpoint/ckpt.pth.tar" ∧
  fs' !! resolve "ckpt_best.pth.tar"
    = (if is_best then Some (Pickled state) else fs !! resolve "ckpt_best.pth.tar").
Proof.
  destruct is_best.
  - rewrite save_checkpoint_best by (vm_compute; discriminate).
    cbn [snd]. repeat split.
    + rewrite lookup_insert_ne by (vm_compute; discriminate).
      by rewrite lookup_insert_eq.
    + by rewrite !lookup_insert_ne by (vm_compute; discriminate).
    + by rewrite lookup_insert_eq.
  - rewrite save_checkpoint_plain. cbn [snd]. repeat split.
    + by rewrite lookup_insert_eq.
    + by rewrite lookup_insert_ne by (vm_compute; discriminate).
    + by rewrite lookup_insert_ne by (vm_compute; discriminate).
Qed.

End CkptProofs.

(** ** show_log *)

Section LogProofs.
Import Log.

Lemma snoc_neq {A} (l : list A) (x : A) : l ++ [x] ≠ l.
Proof.
  intros H. apply (f_equal length) in H. rewrite length_app in H. cbn in H. lia.
Qed.

(** C9.  [show_log(s, r)] prints [s] if and only if [r] is 0, and leaves
    standard output untouched if and only if [r] is not 0; it never
    raises. *)
Theorem show_log_prints_on_rank_zero (log_str : string) (rank : Z) (out : list string) :
  fst (show_log log_str rank out) = Py.Ok tt ∧
  (snd (show_log log_str rank out) = out ++ [log_str] ↔ rank = 0) ∧
  (snd (show_log log_str rank out) = out ↔ rank ≠ 0).
Proof.
  unfold show_log, print, Py.modify, Py.ret.
  destruct (decide (rank = 0)) as [->|Hne]; cbn [fst snd].
  - split; [reflexivity|]. split.
    + split; intros _; reflexivity.
    + split; [intros H; by apply snoc_neq in H|intros H; by destruct H].
  - split; [reflexivity|]. split.
    + split; [intros H; symmetry in H; by apply snoc_neq in H|intros H; by destruct Hne].
    + split; intros _; [exact Hne|reflexivity].
Qed.

End LogProofs.

(** * Further properties *)

(** ** AverageMeter in use *)

Section MeterUseProofs.
Import AverageMeter MeterUse.
Local Open Scope Qc_scope.

Lemma after_fields (calls : list (Qc * Qc)) (m : t) :
  name (after calls m) = name m ∧
  fmt (after calls m) = fmt m ∧
  val (after calls m) = last_value (val m) calls ∧
  sum (after calls m) = sum m + weighted_total calls ∧
  count (after calls m) = count m + total_count calls.
Proof.
  revert m. induction calls as [|[v n] calls IH]; intros m.
  - cbn. repeat split; ring.
  - unfold after, last_value in *. cbn [foldl fst snd].
    rewrite update_step. cbn zeta.
    destruct (decide (count m + n = 0)) as [Hz|Hz]; cbn [snd];
      destruct (IH (mk (name m) (fmt m) v
                       (if decide (count m + n = 0) then avg m
                        else (sum m + v * n) / (count m + n))
                       (sum m + v * n) (count m + n)))
        as (Hn & Hf & Hv & Hs & Hc);
      rewrite ?decide_True in * by done; rewrite ?decide_False in * by done;
      cbn [name fmt val sum count] in *;
      rewrite Hn, Hf, Hv, Hs, Hc;
      unfold weighted_total, total_count; cbn [foldr fst snd];
      repeat split; ring.
Qed.

(** X1.  Calls that raise still count: whatever calls are made after
    [reset()], and whether or not some of them raised and were passed
    over, [sum] is the sum of the [v_i * n_i], [count] the sum of the
    [n_i], [val] the last value passed, and [name] and [fmt] are as
    before. *)
Theorem totals_survive_raises (m : t) (calls : list (Qc * Qc)) :
  sum (after calls (snd (reset m))) = weighted_total calls ∧
  count (after calls (snd (reset m))) = total_count calls ∧
  val (after calls (snd (reset m))) = last_value 0 calls ∧
  name (after calls (snd (reset m))) = name m ∧
  fmt (after calls (snd (reset m))) = fmt m.
Proof.
  rewrite reset_step. cbn [snd].
  destruct (after_fields calls (mk (name m) (fmt m) 0 0 0 0))
    as (Hn & Hf & Hv & Hs & Hc).
  cbn [name fmt val sum count] in *.
  rewrite Hn, Hf, Hv, Hs, Hc. repeat split; ring.
Qed.

Lemma totals_survive_raises_fields (m : t) (calls : list (Qc * Qc)) :
  sum (after calls (snd (reset m))) = weighted_total calls ∧
  count (after calls (snd (reset m))) = total_count calls.
Proof.
  rewrite reset_step. cbn [snd].
  destruct (after_fields calls (mk (name m) (fmt m) 0 0 0 0))
    as (_ & _ & _ & Hs & Hc).
  cbn [sum count] in *. rewrite Hs, Hc. split; ring.
Qed.

Lemma after_snoc (calls : list (Qc * Qc)) (v n : Qc) (m : t) :
  after (calls ++ [(v, n)]) m = snd (update v n (after calls m)).
Proof. unfold after. by rewrite foldl_app. Qed.

Lemma weighted_total_snoc (calls : list (Qc * Qc)) (v n : Qc) :
  weighted_total (calls ++ [(v, n)]) = weighted_total calls + v * n.
Proof.
  unfold weighted_total. induction calls as [|c calls IH]; cbn [app foldr fst snd].
  - ring.
  - rewrite IH. ring.
Qed.

Lemma total_count_snoc (calls : list (Qc * Qc)) (v n : Qc) :
  total_count (calls ++ [(v, n)]) = total_count calls + n.
Proof.
  unfold total_count. induction calls as [|c calls IH]; cbn [app foldr fst snd].
  - ring.
  - rewrite IH. ring.
Qed.

(** X2.  The average recovers: if at least one call was made after
    [reset()] and the final count is nonzero, [avg] is the sum of the
    [v_i * n_i] divided by the sum of the [n_i], even if earlier calls
    raised. *)
Theorem avg_right_when_count_nonzero (m : t) (calls : list (Qc * Qc)) :
  calls ≠ [] →
  total_count calls ≠ 0 →
  avg (after calls (snd (reset m))) = weighted_total calls / total_count calls.
Proof.
  intros Hne Hc. destruct calls as [|c calls _] using rev_ind; [done|].
  destruct c as [v n]. rewrite after_snoc, update_step. cbn zeta.
  destruct (totals_survive_raises_fields m calls) as (Hs & Hcnt).
  rewrite weighted_total_snoc. rewrite total_count_snoc in Hc |- *.
  rewrite Hs, Hcnt. by rewrite decide_False.
Qed.

Lemma avg_right_when_count_nonzero_witness :
  [(Qc_of_Z 4, 0); (Qc_of_Z 6, 2)] ≠ [] ∧
  total_count [(Qc_of_Z 4, 0); (Qc_of_Z 6, 2)] ≠ 0 ∧
  avg (after [(Qc_of_Z 4, 0); (Qc_of_Z 6, 2)] (snd (reset (init "Loss" ":f"))))
    = weighted_total [(Qc_of_Z 4, 0); (Qc_of_Z 6, 2)]
      / total_count [(Qc_of_Z 4, 0); (Qc_of_Z 6, 2)].
Proof.
  assert (total_count [(Qc_of_Z 4, 0); (Qc_of_Z 6, 2)] ≠ 0) as Hc.
  { intros H. apply (f_equal this) in H. vm_compute in H. discriminate H. }
  split; [discriminate|]. split; [exact Hc|].
  apply (avg_right_when_count_nonzero (init "Loss" ":f")
           [(Qc_of_Z 4, 0); (Qc_of_Z 6, 2)]); [discriminate|exact Hc].
Defined.

End MeterUseProofs.

(** ** scaled_all_reduce: further properties *)

Section DistMoreProofs.
Import Dist DistView.
Local Open Scope Qc_scope.







(** The state a call leaves, for a group of any size. *)
End DistMoreProofs.

(** ** accuracy: further properties *)

Section AccuracyMoreProofs.
Import Accuracy AccuracyView.
Local Open Scope Qc_scope.

Lemma for_append_ext {S A B} (body1 body2 : A → Py.M S B) (xs : list A)
    (ys : list B) (s : S) :
  (∀ x s, body1 x s = body2 x s) →
  Py.for_append ys xs body1 s = Py.for_append ys xs body2 s.
Proof.
  intros Hext. revert ys s. induction xs as [|x xs IH]; intros ys s; [done|].
  cbn [Py.for_append]. unfold Py.bind. rewrite Hext.
  destruct (body2 x s) as [[y|e] s']; [apply IH|done].
Qed.

(** [Accuracy.accuracy] is [AccuracyValue.accuracy] at the rationals: what
    is proved of the one for any arithmetic holds of the other. *)
Lemma accuracy_at_rationals (output : list (list Qc)) (target topk : list nat) :
  AccuracyValue.accuracy Qc Qc
      (fun bs => Qc_of_Z (Z.of_nat (hits bs)))
      (fun batch_size => Qc_of_Z 100 / Qc_of_Z (Z.of_nat batch_size))
      Qcmult output target topk
    = accuracy output target topk.
Proof.
  unfold AccuracyValue.accuracy, accuracy. f_equal.
  unfold Py.bind.
  destruct (Py.lift (py_max topk) tt) as [[maxk|e] s]; [|done].
  destruct (Py.for_append [] output _ s) as [[pred|e] s']; [|done].
  destruct (Py.lift (expand_as target (length output)) s') as [[expanded|e] s'']; [|done].
  apply for_append_ext. intros k u.
  unfold Py.lift, AccuracyValue.percent_of, Py.truediv.
  destruct (decide (length target = 0%nat)) as [Hz|Hnz].
  - rewrite Hz. destruct (decide _) as [_|Hne]; [done|].
    exfalso. apply Hne. apply Qc_is_canon. reflexivity.
  - rewrite decide_False; [done|].
    rewrite <-Z2Qc_inj_0. intros H. apply Z2Qc_inj in H. lia.
Qed.

(** A loop whose body only computes either gets through every element or
    stops at the first one that raises; the store is untouched. *)
Lemma for_append_pure_cases {S A B} (f : A → Py.result B) (xs : list A)
    (ys : list B) (s : S) :
  (∃ zs, Forall2 (fun x z => f x = Py.Ok z) xs zs ∧
         Py.for_append ys xs (fun x => Py.lift (f x)) s = (Py.Ok (ys ++ zs), s)) ∨
  (∃ x e, x ∈ xs ∧ f x = Py.Raise e ∧
          Py.for_append ys xs (fun x => Py.lift (f x)) s = (Py.Raise e, s)).
Proof.
  revert ys. induction xs as [|x xs IH]; intros ys.
  - left. exists []. split; [constructor|]. cbn. unfold Py.ret.
    by rewrite app_nil_r.
  - cbn [Py.for_append]. unfold Py.bind, Py.lift at 1 3.
    destruct (f x) as [z|e] eqn:Hx.
    + destruct (IH (ys ++ [z])) as [(zs & Hzs & Hrun)|(x' & e & Hin & Hx' & Hrun)].
      * left. exists (z :: zs). split; [by constructor|].
        rewrite Hrun. by rewrite <-app_assoc.
      * right. exists x', e. split; [by right|]. by split.
    + right. exists x, e. split; [by left|]. by split.
Qed.

(** The shape of every normal return of [accuracy]. *)
Lemma accuracy_returns (output : list (list Qc)) (target topk : list nat)
    (res : list Qc) :
  accuracy output target topk = Py.Ok res →
  ∃ maxk pred expanded,
    py_max topk = Py.Ok maxk ∧
    Forall2 (fun row p => topk_row maxk row = Py.Ok p) output pred ∧
    expand_as target (length output) = Py.Ok expanded ∧
    target ≠ [] ∧
    res = map (percent (correct_matrix maxk pred expanded) (length target)) topk.
Proof.
  unfold accuracy. intros Hres.
  destruct (py_max topk) as [maxk|e] eqn:Hmax; [|discriminate Hres].
  unfold Py.bind at 1 in Hres. unfold Py.lift at 1 in Hres.
  unfold Py.bind at 1 in Hres.
  destruct (for_append_pure_cases (topk_row maxk) output [] tt)
    as [(pred & Hpred & Hrun)|(x & e & _ & _ & Hrun)];
    rewrite Hrun in Hres; [|discriminate Hres].
  cbn [app] in Hres.
  unfold Py.bind at 1 in Hres. unfold Py.lift at 1 in Hres.
  destruct (expand_as target (length output)) as [expanded|e] eqn:Hexp;
    [|discriminate Hres].
  fold (correct_matrix maxk pred expanded) in Hres.
  rewrite (for_append_ext _
             (fun k => Py.lift
                (match Py.truediv (Qc_of_Z 100) (Qc_of_Z (Z.of_nat (length target))) with
                 | Py.Ok c => Py.Ok (correct_sum k (correct_matrix maxk pred expanded) * c)
                 | Py.Raise e => Py.Raise e
                 end))) in Hres.
  2:{ intros k s. unfold Py.bind, Py.lift, Py.ret.
      by destruct (Py.truediv _ _). }
  exists maxk, pred, expanded. split; [done|]. split; [done|]. split; [done|].
  destruct target as [|c target].
  - destruct topk as [|k topk]; [discriminate Hmax|].
    cbn [Py.for_append] in Hres. unfold Py.bind, Py.lift at 1 in Hres.
    change (Z.of_nat (length [])) with 0%Z in Hres.
    rewrite Z2Qc_inj_0, truediv_zero in Hres. discriminate Hres.
  - split; [done|].
    rewrite truediv_ok in Hres by apply Qc_of_nat_succ_ne_0.
    rewrite (for_append_pure _ topk
               (map (percent (correct_matrix maxk pred expanded)
                             (length (c :: target))) topk)) in Hres.
    + cbn [fst app] in Hres. by injection Hres as <-.
    + clear. induction topk as [|k topk IH]; cbn; constructor; done.
Qed.

(** X8.  One value per requested [k]: whenever [accuracy] returns, its
    result has as many entries as [topk], and the batch was not empty. *)
Theorem accuracy_one_value_per_k (output : list (list Qc)) (target topk : list nat)
    (res : list Qc) :
  accuracy output target topk = Py.Ok res →
  length res = length topk ∧ target ≠ [] ∧ topk ≠ [].
Proof.
  intros Hres.
  destruct (accuracy_returns _ _ _ _ Hres) as (maxk & pred & expanded & Hmax & _ & _ & Hne & ->).
  split; [by rewrite length_map|]. split; [done|].
  intros ->. discriminate Hmax.
Qed.

Lemma accuracy_one_value_per_k_witness :
  accuracy [[0; 1]; [1; 0]; [0; 1]] [1; 1; 1]%nat [1; 2]%nat
    = Py.Ok [Qc_of_Z 200 / Qc_of_Z 3; Qc_of_Z 100] ∧
  length [Qc_of_Z 200 / Qc_of_Z 3; Qc_of_Z 100] = length [1; 2]%nat ∧
  [1; 1; 1]%nat ≠ [] ∧ [1; 2]%nat ≠ [].
Proof.
  assert (accuracy [[0; 1]; [1; 0]; [0; 1]] [1; 1; 1]%nat [1; 2]%nat
            = Py.Ok [Qc_of_Z 200 / Qc_of_Z 3; Qc_of_Z 100]) as Hres.
  { vm_compute. apply (f_equal Py.Ok).
    apply (f_equal2 cons); [|apply (f_equal2 cons); [|reflexivity]];
      apply Qc_is_canon; reflexivity. }
  split; [exact Hres|].
  exact (accuracy_one_value_per_k _ _ _ _ Hres).
Defined.

(** *** Larger [k], larger value *)

Lemma hits_app (bs bs' : list bool) : hits (bs ++ bs') = (hits bs + hits bs')%nat.
Proof. unfold hits. by rewrite filter_app, length_app. Qed.

Lemma hits_take_mono (correct : list (list bool)) (k k' : nat) :
  (k ≤ k')%nat → (hits (concat (take k correct)) ≤ hits (concat (take k' correct)))%nat.
Proof.
  intros Hk. destruct (Nat.le_exists_sub k k' Hk) as [d [-> _]].
  rewrite (Nat.add_comm d k), <-take_take_drop, concat_app, hits_app. lia.
Qed.

Lemma Qc_of_nat_pos (n : nat) : 0 < Qc_of_Z (Z.of_nat (S n)).
Proof.
  rewrite <-Z2Qc_inj_0. apply (proj1 (Z2Qc_inj_lt 0 (Z.of_nat (S n)))). lia.
Qed.

Lemma scale_nonneg (n : nat) : 0 ≤ Qc_of_Z 100 / Qc_of_Z (Z.of_nat (S n)).
Proof.
  unfold Qcdiv. apply Qcmult_nonneg_nonneg.
  - rewrite <-Z2Qc_inj_0. by apply (proj1 (Z2Qc_inj_le 0 100)).
  - apply Qclt_le_weak, Qcinv_pos, Qc_of_nat_pos.
Qed.

Lemma percent_mono (correct : list (list bool)) (n k k' : nat) :
  (k ≤ k')%nat → percent correct (S n) k ≤ percent correct (S n) k'.
Proof.
  intros Hk. unfold percent, correct_sum.
  apply Qcmult_le_mono_nonneg_r; [apply scale_nonneg|].
  apply (proj1 (Z2Qc_inj_le _ _)), Nat2Z.inj_le, hits_take_mono, Hk.
Qed.

(** X9.  Top-k accuracy grows with k: in one call of [accuracy], the
    value returned for a larger [k] is at least the value returned for a
    smaller one. *)
Theorem accuracy_monotone_in_k (output : list (list Qc)) (target topk : list nat)
    (res : list Qc) (i j k k' : nat) (a a' : Qc) :
  accuracy output target topk = Py.Ok res →
  topk !! i = Some k → res !! i = Some a →
  topk !! j = Some k' → res !! j = Some a' →
  (k ≤ k')%nat →
  a ≤ a'.
Proof.
  intros Hres Hk Ha Hk' Ha' Hle.
  destruct (accuracy_returns _ _ _ _ Hres)
    as (maxk & pred & expanded & _ & _ & _ & Hne & ->).
  change (map ?f topk) with (f <$> topk) in Ha, Ha'.
  rewrite list_lookup_fmap, Hk in Ha. rewrite list_lookup_fmap, Hk' in Ha'.
  injection Ha as <-. injection Ha' as <-.
  destruct target as [|c target]; [done|]. by apply percent_mono.
Qed.

Lemma accuracy_monotone_in_k_witness :
  accuracy [[0; 1]; [1; 0]; [0; 1]] [1; 1; 1]%nat [1; 2]%nat
    = Py.Ok [Qc_of_Z 200 / Qc_of_Z 3; Qc_of_Z 100] ∧
  Qc_of_Z 200 / Qc_of_Z 3 ≤ Qc_of_Z 100.
Proof.
  assert (accuracy [[0; 1]; [1; 0]; [0; 1]] [1; 1; 1]%nat [1; 2]%nat
            = Py.Ok [Qc_of_Z 200 / Qc_of_Z 3; Qc_of_Z 100]) as Hres.
  { vm_compute. apply (f_equal Py.Ok).
    apply (f_equal2 cons); [|apply (f_equal2 cons); [|reflexivity]];
      apply Qc_is_canon; reflexivity. }
  split; [exact Hres|].
  apply (accuracy_monotone_in_k _ _ _ _ 0%nat 1%nat 1%nat 2%nat _ _ Hres);
    [reflexivity|reflexivity|reflexivity|reflexivity|lia].
Defined.

(** *** Errors *)

Lemma topk_row_short (k : nat) (row : list Qc) :
  (length row < k)%nat →
  topk_row k row = Py.Raise (Py.RuntimeError "selected index k out of range").
Proof. intros Hlt. unfold topk_row. by rewrite decide_False by lia. Qed.

Lemma topk_row_cases (k : nat) (row : list Qc) :
  (∃ p, topk_row k row = Py.Ok p) ∨
  topk_row k row = Py.Raise (Py.RuntimeError "selected index k out of range").
Proof.
  unfold topk_row. destruct (decide (k ≤ length row)%nat); [left; by eexists|by right].
Qed.

(** X10.  Asking for more ranks than there are classes is an error: if
    some row of [output] has fewer entries than the largest [k] of
    [topk], [accuracy] raises [RuntimeError], whatever the targets. *)
Theorem accuracy_k_beyond_classes (output : list (list Qc)) (target topk : list nat)
    (maxk : nat) :
  py_max topk = Py.Ok maxk →
  Exists (fun row => (length row < maxk)%nat) output →
  accuracy output target topk
    = Py.Raise (Py.RuntimeError "selected index k out of range").
Proof.
  intros Hmax Hshort. unfold accuracy. rewrite Hmax.
  unfold Py.bind at 1. unfold Py.lift at 1. unfold Py.bind at 1.
  destruct (for_append_pure_cases (topk_row maxk) output [] tt)
    as [(pred & Hpred & _)|(x & e & _ & Hx & ->)].
  - exfalso. apply Exists_exists in Hshort as (row & Hin & Hlt).
    apply list_elem_of_lookup_1 in Hin as [i Hi].
    destruct (Forall2_lookup_l _ _ _ _ _ Hpred Hi) as (p & _ & Hp).
    rewrite topk_row_short in Hp by done. discriminate Hp.
  - cbn [fst]. destruct (topk_row_cases maxk x) as [[p Hp]|Hr]; congruence.
Qed.

Lemma accuracy_k_beyond_classes_witness :
  py_max [1; 5]%nat = Py.Ok 5%nat ∧
  Exists (fun row => (length row < 5)%nat) [[0; 1]; [1; 0]] ∧
  accuracy [[0; 1]; [1; 0]] [1; 0]%nat [1; 5]%nat
    = Py.Raise (Py.RuntimeError "selected index k out of range").
Proof.
  assert (Exists (fun row => (length row < 5)%nat) [[0; 1]; [1; 0]]) as Hshort.
  { apply Exists_cons_hd. cbn. lia. }
  split; [reflexivity|]. split; [exact Hshort|].
  apply (accuracy_k_beyond_classes [[0; 1]; [1; 0]] [1; 0]%nat [1; 5]%nat 5%nat);
    [reflexivity|exact Hshort].
Defined.

(** X11.  The targets have to fit the batch: if every row has enough
    classes but the number of targets is neither the number of rows nor 1,
    [accuracy] raises [RuntimeError]. *)
Theorem accuracy_target_mismatch (output : list (list Qc)) (target topk : list nat)
    (maxk : nat) :
  py_max topk = Py.Ok maxk →
  Forall (fun row => (maxk ≤ length row)%nat) output →
  length target ≠ length output →
  length target ≠ 1%nat →
  accuracy output target topk
    = Py.Raise (Py.RuntimeError
                  "The expanded size of the tensor must match the existing size").
Proof.
  intros Hmax Hrows Hlen Hone. unfold accuracy. rewrite Hmax.
  unfold Py.bind at 1. unfold Py.lift at 1. unfold Py.bind at 1.
  destruct (for_append_pure_cases (topk_row maxk) output [] tt)
    as [(pred & _ & ->)|(x & e & Hin & Hx & _)].
  - unfold Py.bind at 1. unfold Py.lift at 1. unfold expand_as.
    rewrite decide_False by done.
    destruct target as [|c [|c' target]]; done.
  - exfalso. rewrite Forall_forall in Hrows. specialize (Hrows x Hin).
    unfold topk_row in Hx. rewrite decide_True in Hx by done. discriminate Hx.
Qed.

Lemma accuracy_target_mismatch_witness :
  py_max [1%nat] = Py.Ok 1%nat ∧
  Forall (fun row => (1 ≤ length row)%nat) [[0; 1]; [1; 0]; [0; 1]] ∧
  length [1; 0]%nat ≠ length [[0; 1]; [1; 0]; [0; 1]] ∧
  length [1; 0]%nat ≠ 1%nat ∧
  accuracy [[0; 1]; [1; 0]; [0; 1]] [1; 0]%nat [1%nat]
    = Py.Raise (Py.RuntimeError
                  "The expanded size of the tensor must match the existing size").
Proof.
  assert (Forall (fun row => (1 ≤ length row)%nat) [[0; 1]; [1; 0]; [0; 1]]) as Hrows.
  { repeat (apply List.Forall_cons; [cbn; lia|]). apply List.Forall_nil. }
  split; [reflexivity|]. split; [exact Hrows|].
  split; [discriminate|]. split; [discriminate|].
  apply (accuracy_target_mismatch [[0; 1]; [1; 0]; [0; 1]] [1; 0]%nat [1%nat] 1%nat);
    [reflexivity|exact Hrows|discriminate|discriminate].
Defined.

(** *** One target for the whole batch *)

(** X13.  A single target is broadcast over the batch: with [B] rows that
    are all one-hot at class [c] and the one-element target [[c]],
    [accuracy] returns [100 * B] for top-1, since it divides by the number
    of targets and not by the number of rows. *)
Theorem accuracy_single_target_broadcast (classes c : nat) (B : nat) :
  (c < classes)%nat →
  (0 < B)%nat →
  accuracy (replicate B (one_hot classes c)) [c] [1%nat]
    = Py.Ok [Qc_of_Z (100 * Z.of_nat B)].
Proof.
  intros Hc HB. unfold accuracy. cbn [py_max foldl].
  unfold Py.bind at 1. unfold Py.lift at 1. unfold Py.bind at 1.
  rewrite (for_append_pure (topk_row 1) _ (replicate B [c])).
  2:{ clear HB. induction B as [|B IH]; cbn; constructor; [|done].
      by apply topk_row_one_hot. }
  cbn [app]. rewrite length_replicate.
  unfold Py.bind at 1. unfold Py.lift at 1.
  assert (expand_as [c] B = Py.Ok (replicate B c)) as ->.
  { unfold expand_as. destruct (decide (length [c] = B)) as [<-|]; done. }
  cbn [map Py.for_append]. unfold Py.bind at 1. unfold Py.bind at 1.
  unfold Py.lift. cbn [length]. change (Z.of_nat 1) with 1%Z.
  rewrite truediv_ok by (rewrite Z2Qc_inj_1; apply Q_apart_0_1).
  unfold Py.ret. cbn [fst app]. do 2 f_equal.
  unfold correct_sum, transpose. cbn [seq map take concat].
  rewrite app_nil_r.
  assert (length (filter (fun b => b = true)
            (zip_with Nat.eqb (map (fun row => nth 0 row 0%nat) (replicate B [c]))
                      (replicate B c))) = B) as ->.
  { clear. induction B as [|B IH]; [done|].
    cbn [replicate map zip_with nth]. rewrite Nat.eqb_refl.
    rewrite filter_cons_True by done. cbn [length]. by rewrite IH. }
  rewrite Z2Qc_inj_mul, Z2Qc_inj_1. field. apply Q_apart_0_1.
Qed.

Lemma accuracy_single_target_broadcast_witness :
  (1 < 2)%nat ∧ (0 < 3)%nat ∧
  accuracy (replicate 3 (one_hot 2 1)) [1%nat] [1%nat]
    = Py.Ok [Qc_of_Z (100 * Z.of_nat 3)].
Proof.
  split; [lia|]. split; [lia|].
  apply (accuracy_single_target_broadcast 2 1 3); lia.
Defined.

End AccuracyMoreProofs.

(** ** save_checkpoint: further properties *)

Section CkptMoreProofs.
Import Ckpt CkptView.
Context {State : Type}.

Lemma save_checkpoint_onto_best (state : State) (filename : string)
    (fs : gmap (list string) (file State)) :
  resolve filename = best →
  save_checkpoint state true filename fs =
    (Py.Raise (Py.SameFileError filename), <[best := Pickled state]> fs).
Proof.
  intros Heq. unfold save_checkpoint, torch_save, copyfile. py_unfold.
  rewrite Heq, lookup_insert_eq. fold best. by rewrite decide_True.
Qed.

Lemma resolve_dotted (n : nat) (name : string) :
  resolve (dotted n name) = resolve name.
Proof.
  induction n as [|n IH]; [done|].
  change (dotted (S n) name) with (String "." (String "/" (dotted n name))).
  unfold resolve in *. cbn [components Ascii.eqb Bool.eqb].
  rewrite filter_cons_False by (intros [_ H]; done). exact IH.
Qed.

Lemma resolve_in_working_directory (filename : string) :
  in_working_directory filename → resolve filename = [filename].
Proof.
  intros (Hone & Hne & Hdot & _). unfold resolve. rewrite Hone.
  by rewrite filter_cons_True.
Qed.

(** X14.  Saving the best checkpoint under the name of the best copy
    fails after the fact: if [filename] is [ckpt_best.pth.tar], written
    with any number of leading ["./"], and [is_best] is true, the state is
    written to that file and then copying the file onto itself raises
    [SameFileError]. *)
Theorem save_checkpoint_best_onto_itself (state : State) (n : nat)
    (fs : gmap (list string) (file State)) :
  fst (save_checkpoint state true (dotted n "ckpt_best.pth.tar") fs)
    = Py.Raise (Py.SameFileError (dotted n "ckpt_best.pth.tar")) ∧
  snd (save_checkpoint state true (dotted n "ckpt_best.pth.tar") fs) !! best
    = Some (Pickled state).
Proof.
  rewrite save_checkpoint_onto_best by apply resolve_dotted. cbn [fst snd].
  split; [done|]. by rewrite lookup_insert_eq.
Qed.

(** X15.  Nothing else is written: a call of [save_checkpoint] with a
    relative, plain file name, whether it returns or raises, changes no
    file other than the named one and, when [is_best] is true, the best
    copy; when [is_best] is false the best copy is among the files left
    alone. *)
Theorem save_checkpoint_writes_nothing_else (state : State) (is_best : bool)
    (filename : string) (fs : gmap (list string) (file State)) (p : list string) :
  relative filename →
  plain (resolve filename) →
  plain p →
  p ≠ resolve filename →
  is_best = false ∨ p ≠ best →
  snd (save_checkpoint state is_best filename fs) !! p = fs !! p.
Proof.
  intros _ _ _ Hfile Hbest. destruct is_best.
  - destruct Hbest as [|Hbest]; [done|].
    destruct (decide (resolve filename = best)) as [Heq|Hne].
    + rewrite save_checkpoint_onto_best by done. cbn [snd].
      by rewrite lookup_insert_ne.
    + rewrite save_checkpoint_best by done. cbn [snd]. fold best.
      by rewrite !lookup_insert_ne.
  - rewrite save_checkpoint_plain. cbn [snd]. by rewrite lookup_insert_ne.
Qed.

(** X16.  The best copy is a snapshot: after a best save of [s1] and a
    later save of [s2] that is not best, under the same file name of the
    working directory other than [ckpt_best.pth.tar], the file holds [s2]
    and the best copy still holds [s1]. *)
Theorem best_copy_survives_later_save (s1 s2 : State) (filename : string)
    (fs : gmap (list string) (file State)) :
  in_working_directory filename →
  filename ≠ "ckpt_best.pth.tar" →
  ∃ fs', (save_checkpoint s1 true filename ;; save_checkpoint s2 false filename)%py fs
           = (Py.Ok tt, fs') ∧
         fs' !! resolve filename = Some (Pickled s2) ∧
         fs' !! best = Some (Pickled s1).
Proof.
  intros Hcwd Hname.
  assert (resolve filename ≠ best) as Hne.
  { rewrite (resolve_in_working_directory filename Hcwd).
    change best with ["ckpt_best.pth.tar"]. congruence. }
  unfold Py.bind.
  rewrite save_checkpoint_best by done. rewrite save_checkpoint_plain.
  eexists. split; [reflexivity|]. fold best. split.
  - by rewrite lookup_insert_eq.
  - rewrite lookup_insert_ne by done. by rewrite lookup_insert_eq.
Qed.

End CkptMoreProofs.

Lemma not_elem_of_by_decide {A} `{EqDecision A} (x : A) (l : list A) :
  bool_decide (x ∉ l) = true → x ∉ l.
Proof. intros H. by apply bool_decide_eq_true in H. Qed.

Lemma save_checkpoint_writes_nothing_else_witness :
  CkptView.relative "epoch_3.pth.tar" ∧
  CkptView.plain (Ckpt.resolve "epoch_3.pth.tar") ∧
  CkptView.plain CkptView.best ∧
  CkptView.best ≠ Ckpt.resolve "epoch_3.pth.tar" ∧
  (false = false ∨ CkptView.best ≠ CkptView.best) ∧
  snd (Ckpt.save_checkpoint 7%nat false "epoch_3.pth.tar"
         {[ CkptView.best := Ckpt.Pickled 1%nat ]}) !! CkptView.best
    = ({[ CkptView.best := Ckpt.Pickled 1%nat ]}
         : gmap (list string) (Ckpt.file nat)) !! CkptView.best.
Proof.
  assert (CkptView.relative "epoch_3.pth.tar") as H0 by (vm_compute; discriminate).
  assert (CkptView.plain (Ckpt.resolve "epoch_3.pth.tar")) as H1.
  { apply not_elem_of_by_decide. vm_compute. reflexivity. }
  assert (CkptView.plain CkptView.best) as H2.
  { apply not_elem_of_by_decide. vm_compute. reflexivity. }
  assert (CkptView.best ≠ Ckpt.resolve "epoch_3.pth.tar") as H3.
  { vm_compute. discriminate. }
  assert (false = false ∨ CkptView.best ≠ CkptView.best) as H4 by (left; reflexivity).
  split; [exact H0|]. split; [exact H1|]. split; [exact H2|]. split; [exact H3|].
  split; [exact H4|].
  exact (save_checkpoint_writes_nothing_else 7%nat false "epoch_3.pth.tar"
           {[ CkptView.best := Ckpt.Pickled 1%nat ]} CkptView.best
           H0 H1 H2 H3 H4).
Defined.

Lemma best_copy_survives_later_save_witness :
  CkptView.in_working_directory "ckpt.pth.tar" ∧
  "ckpt.pth.tar" ≠ "ckpt_best.pth.tar" ∧
  ∃ fs', (Ckpt.save_checkpoint 1%nat true "ckpt.pth.tar" ;;
          Ckpt.save_checkpoint 2%nat false "ckpt.pth.tar")%py ∅
           = (Py.Ok tt, fs') ∧
         fs' !! Ckpt.resolve "ckpt.pth.tar" = Some (Ckpt.Pickled 2%nat) ∧
         fs' !! CkptView.best = Some (Ckpt.Pickled 1%nat).
Proof.
  assert (CkptView.in_working_directory "ckpt.pth.tar") as H1.
  { split; [reflexivity|]. repeat split; discriminate. }
  assert ("ckpt.pth.tar" ≠ "ckpt_best.pth.tar") as H2 by discriminate.
  split; [exact H1|]. split; [exact H2|].
  exact (best_copy_survives_later_save 1%nat 2%nat "ckpt.pth.tar" ∅ H1 H2).
Defined.

(** ** setup_distributed *)

Section SetupProofs.
Import Setup SetupDistributed SetupView.
Variable int : string → Py.result Z.
Variable getoutput : string → string.

Lemma has_true (key v : string) (h : host) :
  environ h !! key = Some v → has key h = (Ok true, h).
Proof.
  intros Hk. unfold has. rewrite Hk. by rewrite bool_decide_eq_true_2.
Qed.

Lemma has_false (key : string) (h : host) :
  environ h !! key = None → has key h = (Ok false, h).
Proof.
  intros Hk. unfold has. rewrite Hk.
  rewrite bool_decide_eq_false_2; [done|]. by intros [v Hv].
Qed.

Lemma mod_cases (a b : Z) :
  (b = 0 ∧ Builtins.mod_ a b = Py.Raise Py.ZeroDivisionError) ∨
  (b ≠ 0 ∧ Builtins.mod_ a b = Py.Ok (a mod b)).
Proof.
  unfold Builtins.mod_. destruct (decide (b = 0)); [by left|by right].
Qed.

(** The launcher branch, case by case. *)
Lemma launcher_run (backend : string) (port : option Z) (cfg : bool) (h : host) :
  environ h !! "SLURM_JOB_ID" = None →
  setup_distributed int getoutput backend port cfg h =
    match environ h !! "RANK" with
    | None => (Raise (KeyError "RANK"), h)
    | Some rank_s =>
        match int rank_s with
        | Py.Raise e => (Raise (Builtin e), h)
        | Py.Ok rank =>
            match environ h !! "WORLD_SIZE" with
            | None => (Raise (KeyError "WORLD_SIZE"), h)
            | Some world_s =>
                match int world_s with
                | Py.Raise e => (Raise (Builtin e), h)
                | Py.Ok world_size =>
                    if decide (device_count h = 0)
                    then (Raise (Builtin Py.ZeroDivisionError), h)
                    else (Ok tt,
                          mk (environ h) (device_count h)
                             (Some (rank mod device_count h))
                             (Some (backend, world_size, rank)) (Some cfg))
                end
            end
        end
    end.
Proof.
  intros Hslurm. unfold setup_distributed.
  unfold bind at 1. unfold get_device_count at 1.
  unfold bind at 1. rewrite has_false by done.
  unfold bind at 1. unfold bind at 1. unfold getenv at 1.
  destruct (environ h !! "RANK") as [rank_s|]; [|done].
  unfold bind at 1. unfold builtin at 1.
  destruct (int rank_s) as [rank|e]; [|done].
  unfold bind at 1. unfold getenv at 1.
  destruct (environ h !! "WORLD_SIZE") as [world_s|]; [|done].
  unfold bind at 1. unfold builtin at 1.
  destruct (int world_s) as [world_size|e]; [|done].
  unfold ret at 1. cbn [fst snd].
  unfold bind at 1. unfold builtin at 1. unfold Builtins.mod_.
  destruct (decide (device_count h = 0)); [done|].
  destruct h; reflexivity.
Qed.

Lemma port_step (port : option Z) (h : host) :
  (match port with
   | Some p => setenv "MASTER_PORT" (Builtins.str p)
   | None =>
       (has_port <- has "MASTER_PORT" ;;
        if has_port : bool then ret tt else setenv "MASTER_PORT" "29500")%setup
   end) h =
  (Ok tt, mk (with_port port (environ h)) (device_count h) (device h)
             (group h) (benchmark h)).
Proof.
  unfold with_port. destruct port as [p|]; [done|].
  unfold bind. destruct (environ h !! "MASTER_PORT") as [v|] eqn:Hp.
  - rewrite (has_true _ v) by done. unfold ret. by destruct h.
  - by rewrite has_false by done.
Qed.

Lemma addr_step {A} (addr : string) (k : M A) (h : host) :
  (has_addr <- has "MASTER_ADDR" ;;
   (if has_addr : bool then ret tt else setenv "MASTER_ADDR" addr) ;;
   k)%setup h =
  k (mk (with_addr addr (environ h)) (device_count h) (device h)
        (group h) (benchmark h)).
Proof.
  unfold with_addr, bind. destruct (environ h !! "MASTER_ADDR") as [v|] eqn:Hp.
  - rewrite (has_true _ v) by done. unfold ret. by destruct h.
  - by rewrite has_false by done.
Qed.

(** The Slurm branch, case by case. *)
Lemma slurm_run (backend : string) (port : option Z) (cfg : bool) (h : host)
    (job : string) :
  environ h !! "SLURM_JOB_ID" = Some job →
  setup_distributed int getoutput backend port cfg h =
    match environ h !! "SLURM_PROCID" with
    | None => (Raise (KeyError "SLURM_PROCID"), h)
    | Some procid =>
        match int procid with
        | Py.Raise e => (Raise (Builtin e), h)
        | Py.Ok rank =>
            match environ h !! "SLURM_NTASKS" with
            | None => (Raise (KeyError "SLURM_NTASKS"), h)
            | Some ntasks =>
                match int ntasks with
                | Py.Raise e => (Raise (Builtin e), h)
                | Py.Ok world_size =>
                    match environ h !! "SLURM_NODELIST" with
                    | None => (Raise (KeyError "SLURM_NODELIST"), h)
                    | Some node_list =>
                        let env1 :=
                          <["WORLD_SIZE" := Builtins.str world_size]>
                            (with_addr (getoutput (scontrol node_list))
                               (with_port port (environ h))) in
                        if decide (device_count h = 0)
                        then (Raise (Builtin Py.ZeroDivisionError),
                              mk env1 (device_count h) (device h) (group h) (benchmark h))
                        else (Ok tt,
                              mk (<["RANK" := Builtins.str rank]>
                                    (<["LOCAL_RANK" :=
                                         Builtins.str (rank mod device_count h)]> env1))
                                 (device_count h)
                                 (Some (rank mod device_count h))
                                 (Some (backend, world_size, rank)) (Some cfg))
                    end
                end
            end
        end
    end.
Proof.
  intros Hslurm. unfold setup_distributed.
  unfold bind at 1. unfold get_device_count at 1.
  unfold bind at 1. rewrite (has_true _ job) by done.
  unfold bind at 1. unfold bind at 1. unfold getenv at 1.
  destruct (environ h !! "SLURM_PROCID") as [procid|]; [|done].
  unfold bind at 1. unfold builtin at 1.
  destruct (int procid) as [rank|e]; [|done].
  unfold bind at 1. unfold getenv at 1.
  destruct (environ h !! "SLURM_NTASKS") as [ntasks|]; [|done].
  unfold bind at 1. unfold builtin at 1.
  destruct (int ntasks) as [world_size|e]; [|done].
  unfold bind at 1. unfold getenv at 1.
  destruct (environ h !! "SLURM_NODELIST") as [node_list|]; [|done].
  cbn zeta. fold (scontrol node_list).
  unfold bind at 1. rewrite port_step.
  rewrite addr_step. cbn [environ device_count device group benchmark].
  unfold bind at 1. unfold setenv at 1.
  cbn [environ device_count device group benchmark].
  unfold bind at 1. unfold builtin at 1. unfold Builtins.mod_.
  destruct (decide (device_count h = 0)); [done|].
  reflexivity.
Qed.

(** X17.  A normal return means a consistent set-up: whenever
    [setup_distributed] returns, a process group has been initialised
    with the given backend, the selected device is the rank modulo the
    number of devices, a valid device index, and the cudnn flag holds the
    configured value. *)
Theorem setup_returns_consistent (backend : string) (port : option Z) (cfg : bool)
    (h : host) :
  (0 ≤ device_count h)%Z →
  fst (setup_distributed int getoutput backend port cfg h) = Ok tt →
  ∃ rank world_size,
    group (snd (setup_distributed int getoutput backend port cfg h))
      = Some (backend, world_size, rank) ∧
    device (snd (setup_distributed int getoutput backend port cfg h))
      = Some (rank mod device_count h) ∧
    (0 ≤ rank mod device_count h < device_count h)%Z ∧
    benchmark (snd (setup_distributed int getoutput backend port cfg h)) = Some cfg.
Proof.
  intros Hn.
  destruct (environ h !! "SLURM_JOB_ID") as [job|] eqn:Hjob.
  - rewrite (slurm_run backend port cfg h job Hjob).
    repeat case_match; cbn [fst snd]; try discriminate. intros _.
    eexists _, _. repeat split; try reflexivity; apply Z.mod_pos_bound; lia.
  - rewrite (launcher_run backend port cfg h Hjob).
    repeat case_match; cbn [fst snd]; try discriminate. intros _.
    eexists _, _. repeat split; try reflexivity; apply Z.mod_pos_bound; lia.
Qed.

(** X18.  A missing variable is reported before anything is touched:
    whenever [setup_distributed] raises [KeyError], the key is a variable
    that the environment does not have, and the environment, the selected
    device, the process group and the cudnn flag are all as they were. *)
Theorem setup_key_error_touches_nothing (backend : string) (port : option Z)
    (cfg : bool) (h : host) (key : string) :
  fst (setup_distributed int getoutput backend port cfg h) = Raise (KeyError key) →
  environ h !! key = None ∧
  snd (setup_distributed int getoutput backend port cfg h) = h.
Proof.
  destruct (environ h !! "SLURM_JOB_ID") as [job|] eqn:Hjob.
  - rewrite (slurm_run backend port cfg h job Hjob).
    repeat case_match; cbn [fst snd]; try discriminate; intros [= <-]; done.
  - rewrite (launcher_run backend port cfg h Hjob).
    repeat case_match; cbn [fst snd]; try discriminate; intros [= <-]; done.
Qed.

(** X19.  Outside Slurm the environment is only read: without
    [SLURM_JOB_ID] the call never writes a variable, whether it returns or
    raises, and the [port] argument has no effect at all. *)
Theorem launcher_reads_only (backend : string) (port : option Z) (cfg : bool)
    (h : host) :
  environ h !! "SLURM_JOB_ID" = None →
  environ (snd (setup_distributed int getoutput backend port cfg h)) = environ h ∧
  setup_distributed int getoutput backend port cfg h
    = setup_distributed int getoutput backend None cfg h.
Proof.
  intros Hjob. rewrite !(launcher_run backend _ cfg h Hjob).
  split; [|done]. repeat case_match; done.
Qed.

(** X20.  Who decides the master port and address under Slurm: whenever
    the call returns in a Slurm job, [MASTER_PORT] is the [port] argument
    if one was given, else the value it already had, else ["29500"]; and
    [MASTER_ADDR] is the value it already had, else the output of the
    [scontrol] command on the node list. *)
Theorem slurm_master_port_and_addr (backend : string) (port : option Z) (cfg : bool)
    (h : host) (job : string) :
  environ h !! "SLURM_JOB_ID" = Some job →
  fst (setup_distributed int getoutput backend port cfg h) = Ok tt →
  environ (snd (setup_distributed int getoutput backend port cfg h)) !! "MASTER_PORT"
    = Some (match port with
            | Some p => Builtins.str p
            | None => default "29500" (environ h !! "MASTER_PORT")
            end) ∧
  ∃ node_list,
    environ h !! "SLURM_NODELIST" = Some node_list ∧
    environ (snd (setup_distributed int getoutput backend port cfg h)) !! "MASTER_ADDR"
      = Some (default (getoutput (scontrol node_list)) (environ h !! "MASTER_ADDR")).
Proof.
  intros Hjob. rewrite (slurm_run backend port cfg h job Hjob).
  destruct (environ h !! "SLURM_PROCID") as [procid|]; [|discriminate].
  destruct (int procid) as [rank|]; [|discriminate].
  destruct (environ h !! "SLURM_NTASKS") as [ntasks|]; [|discriminate].
  destruct (int ntasks) as [world_size|]; [|discriminate].
  destruct (environ h !! "SLURM_NODELIST") as [node_list|]; [|discriminate].
  cbn zeta. destruct (decide (device_count h = 0)); [discriminate|].
  intros _. cbn [fst snd environ]. split.
  - rewrite !lookup_insert_ne by done. unfold with_addr, with_port.
    destruct port as [p|].
    + rewrite lookup_insert_ne by done.
      destruct (environ h !! "MASTER_ADDR");
        rewrite ?lookup_insert_ne by done; by rewrite lookup_insert_eq.
    + destruct (environ h !! "MASTER_PORT") as [v|] eqn:Hp.
      * destruct (environ h !! "MASTER_ADDR");
          rewrite ?lookup_insert_ne by done; by rewrite Hp.
      * rewrite lookup_insert_ne by done.
        destruct (environ h !! "MASTER_ADDR");
          rewrite ?lookup_insert_ne by done; by rewrite lookup_insert_eq.
  - exists node_list. split; [done|].
    rewrite !lookup_insert_ne by done. unfold with_addr.
    assert (with_port port (environ h) !! "MASTER_ADDR" = environ h !! "MASTER_ADDR")
      as Hsame.
    { unfold with_port. destruct port as [p|].
      - by rewrite lookup_insert_ne.
      - destruct (environ h !! "MASTER_PORT"); [done|].
        by rewrite lookup_insert_ne. }
    destruct (with_port port (environ h) !! "MASTER_ADDR") as [v|] eqn:Ha.
    + by rewrite Ha, <-Hsame.
    + by rewrite lookup_insert_eq, <-Hsame.
Qed.

Lemma with_port_other (port : option Z) (env : gmap string string) (k : string) :
  k ≠ "MASTER_PORT" → with_port port env !! k = env !! k.
Proof.
  intros Hk. unfold with_port. destruct port as [p|].
  - by rewrite lookup_insert_ne.
  - destruct (env !! "MASTER_PORT"); [done|]. by rewrite lookup_insert_ne.
Qed.

Lemma with_addr_other (addr : string) (env : gmap string string) (k : string) :
  k ≠ "MASTER_ADDR" → with_addr addr env !! k = env !! k.
Proof.
  intros Hk. unfold with_addr.
  destruct (env !! "MASTER_ADDR"); [done|]. by rewrite lookup_insert_ne.
Qed.

(** X21.  What a Slurm job exports: whenever the call returns in a Slurm
    job, [RANK] and [WORLD_SIZE] hold the decimal form of the integers
    read from [SLURM_PROCID] and [SLURM_NTASKS], [LOCAL_RANK] that of the
    rank modulo the number of devices, the process group is initialised
    with these numbers, and no variable other than these three,
    [MASTER_PORT] and [MASTER_ADDR] has changed. *)
Theorem slurm_exports (backend : string) (port : option Z) (cfg : bool)
    (h : host) (job : string) (k : string) :
  environ h !! "SLURM_JOB_ID" = Some job →
  fst (setup_distributed int getoutput backend port cfg h) = Ok tt →
  k ∉ written →
  ∃ procid ntasks rank world_size,
    environ h !! "SLURM_PROCID" = Some procid ∧ int procid = Py.Ok rank ∧
    environ h !! "SLURM_NTASKS" = Some ntasks ∧ int ntasks = Py.Ok world_size ∧
    environ (snd (setup_distributed int getoutput backend port cfg h)) !! "RANK"
      = Some (Builtins.str rank) ∧
    environ (snd (setup_distributed int getoutput backend port cfg h)) !! "WORLD_SIZE"
      = Some (Builtins.str world_size) ∧
    environ (snd (setup_distributed int getoutput backend port cfg h)) !! "LOCAL_RANK"
      = Some (Builtins.str (rank mod device_count h)) ∧
    group (snd (setup_distributed int getoutput backend port cfg h))
      = Some (backend, world_size, rank) ∧
    environ (snd (setup_distributed int getoutput backend port cfg h)) !! k
      = environ h !! k.
Proof.
  intros Hjob. rewrite (slurm_run backend port cfg h job Hjob).
  destruct (environ h !! "SLURM_PROCID") as [procid|]; [|discriminate].
  destruct (int procid) as [rank|] eqn:Hrank; [|discriminate].
  destruct (environ h !! "SLURM_NTASKS") as [ntasks|]; [|discriminate].
  destruct (int ntasks) as [world_size|] eqn:Hws; [|discriminate].
  destruct (environ h !! "SLURM_NODELIST") as [node_list|]; [|discriminate].
  cbn zeta. destruct (decide (device_count h = 0)); [discriminate|].
  intros _ Hk. cbn [fst snd environ group].
  exists procid, ntasks, rank, world_size.
  split; [done|]. split; [done|]. split; [done|]. split; [done|].
  split; [by rewrite lookup_insert_eq|].
  split; [by rewrite !lookup_insert_ne, lookup_insert_eq by done|].
  split; [by rewrite lookup_insert_ne, lookup_insert_eq by done|].
  split; [done|].
  unfold written in Hk. rewrite !not_elem_of_cons in Hk.
  destruct Hk as (Hk1 & Hk2 & Hk3 & Hk4 & Hk5 & _).
  rewrite !lookup_insert_ne by done.
  by rewrite with_addr_other, with_port_other.
Qed.

(** X22.  No device under Slurm: with a readable rank, task count and
    node list but zero devices, the call raises [ZeroDivisionError] when
    it computes the local rank; by then [WORLD_SIZE] (and the master port
    and address) have been written, [LOCAL_RANK] and [RANK] have not. *)
Theorem slurm_without_devices (backend : string) (port : option Z) (cfg : bool)
    (h : host) (job procid ntasks node_list : string) (rank world_size : Z) :
  environ h !! "SLURM_JOB_ID" = Some job →
  environ h !! "SLURM_PROCID" = Some procid → int procid = Py.Ok rank →
  environ h !! "SLURM_NTASKS" = Some ntasks → int ntasks = Py.Ok world_size →
  environ h !! "SLURM_NODELIST" = Some node_list →
  device_count h = 0 →
  fst (setup_distributed int getoutput backend port cfg h)
    = Raise (Builtin Py.ZeroDivisionError) ∧
  environ (snd (setup_distributed int getoutput backend port cfg h)) !! "WORLD_SIZE"
    = Some (Builtins.str world_size) ∧
  environ (snd (setup_distributed int getoutput backend port cfg h)) !! "LOCAL_RANK"
    = environ h !! "LOCAL_RANK" ∧
  environ (snd (setup_distributed int getoutput backend port cfg h)) !! "RANK"
    = environ h !! "RANK".
Proof.
  intros Hjob Hp Hrank Hn Hws Hnl Hzero.
  rewrite (slurm_run backend port cfg h job Hjob), Hp, Hrank, Hn, Hws, Hnl.
  cbn zeta. rewrite decide_True by done. cbn [fst snd environ].
  split; [done|]. split; [by rewrite lookup_insert_eq|].
  split; rewrite lookup_insert_ne by done;
    by rewrite with_addr_other, with_port_other.
Qed.

End SetupProofs.

Section SetupWitnesses.
Import Setup SetupDistributed SetupView.

Lemma setup_returns_consistent_witness :
  (0 ≤ device_count slurm_task)%Z ∧
  fst (setup_distributed int_decimal first_host "nccl" None true slurm_task) = Ok tt ∧
  ∃ rank world_size,
    group (snd (setup_distributed int_decimal first_host "nccl" None true slurm_task))
      = Some ("nccl", world_size, rank) ∧
    device (snd (setup_distributed int_decimal first_host "nccl" None true slurm_task))
      = Some (rank mod device_count slurm_task) ∧
    (0 ≤ rank mod device_count slurm_task < device_count slurm_task)%Z ∧
    benchmark (snd (setup_distributed int_decimal first_host "nccl" None true slurm_task))
      = Some true.
Proof.
  assert (0 ≤ device_count slurm_task)%Z as H0 by (cbn; lia).
  assert (fst (setup_distributed int_decimal first_host "nccl" None true slurm_task)
            = Ok tt) as Hok by (vm_compute; reflexivity).
  split; [exact H0|]. split; [exact Hok|].
  exact (setup_returns_consistent int_decimal first_host "nccl" None true slurm_task
           H0 Hok).
Defined.

Lemma setup_key_error_touches_nothing_witness :
  fst (setup_distributed int_decimal first_host "nccl" None true
         (mk {[ "RANK" := "3" ]} 2 (Some 0) None None))
    = Raise (KeyError "WORLD_SIZE") ∧
  environ (mk {[ "RANK" := "3" ]} 2 (Some 0) None None) !! "WORLD_SIZE" = None ∧
  snd (setup_distributed int_decimal first_host "nccl" None true
         (mk {[ "RANK" := "3" ]} 2 (Some 0) None None))
    = mk {[ "RANK" := "3" ]} 2 (Some 0) None None.
Proof.
  assert (fst (setup_distributed int_decimal first_host "nccl" None true
                 (mk {[ "RANK" := "3" ]} 2 (Some 0) None None))
            = Raise (KeyError "WORLD_SIZE")) as Hraise
    by (vm_compute; reflexivity).
  split; [exact Hraise|].
  exact (setup_key_error_touches_nothing int_decimal first_host "nccl" None true
           (mk {[ "RANK" := "3" ]} 2 (Some 0) None None) "WORLD_SIZE" Hraise).
Defined.

Lemma launcher_reads_only_witness :
  environ launcher_task !! "SLURM_JOB_ID" = None ∧
  environ (snd (setup_distributed int_decimal first_host "nccl" (Some 12345) true
                  launcher_task)) = environ launcher_task ∧
  setup_distributed int_decimal first_host "nccl" (Some 12345) true launcher_task
    = setup_distributed int_decimal first_host "nccl" None true launcher_task.
Proof.
  assert (environ launcher_task !! "SLURM_JOB_ID" = None) as Hjob
    by (vm_compute; reflexivity).
  split; [exact Hjob|].
  exact (launcher_reads_only int_decimal first_host "nccl" (Some 12345) true
           launcher_task Hjob).
Defined.

Lemma slurm_master_port_and_addr_witness :
  environ slurm_task !! "SLURM_JOB_ID" = Some "4242" ∧
  fst (setup_distributed int_decimal first_host "nccl" (Some 12345) true slurm_task)
    = Ok tt ∧
  environ (snd (setup_distributed int_decimal first_host "nccl" (Some 12345) true
                  slurm_task)) !! "MASTER_PORT" = Some (Builtins.str 12345) ∧
  ∃ node_list,
    environ slurm_task !! "SLURM_NODELIST" = Some node_list ∧
    environ (snd (setup_distributed int_decimal first_host "nccl" (Some 12345) true
                    slurm_task)) !! "MASTER_ADDR"
      = Some (default (first_host (scontrol node_list))
                (environ slurm_task !! "MASTER_ADDR")).
Proof.
  assert (environ slurm_task !! "SLURM_JOB_ID" = Some "4242") as Hjob
    by (vm_compute; reflexivity).
  assert (fst (setup_distributed int_decimal first_host "nccl" (Some 12345) true
                 slurm_task) = Ok tt) as Hok by (vm_compute; reflexivity).
  split; [exact Hjob|]. split; [exact Hok|].
  exact (slurm_master_port_and_addr int_decimal first_host "nccl" (Some 12345) true
           slurm_task "4242" Hjob Hok).
Defined.

Lemma slurm_exports_witness :
  environ slurm_task !! "SLURM_JOB_ID" = Some "4242" ∧
  fst (setup_distributed int_decimal first_host "nccl" None true slurm_task) = Ok tt ∧
  ("HOME" ∉ written) ∧
  ∃ procid ntasks rank world_size,
    environ slurm_task !! "SLURM_PROCID" = Some procid ∧
    int_decimal procid = Py.Ok rank ∧
    environ slurm_task !! "SLURM_NTASKS" = Some ntasks ∧
    int_decimal ntasks = Py.Ok world_size ∧
    environ (snd (setup_distributed int_decimal first_host "nccl" None true
                    slurm_task)) !! "RANK" = Some (Builtins.str rank) ∧
    environ (snd (setup_distributed int_decimal first_host "nccl" None true
                    slurm_task)) !! "WORLD_SIZE" = Some (Builtins.str world_size) ∧
    environ (snd (setup_distributed int_decimal first_host "nccl" None true
                    slurm_task)) !! "LOCAL_RANK"
      = Some (Builtins.str (rank mod device_count slurm_task)) ∧
    group (snd (setup_distributed int_decimal first_host "nccl" None true slurm_task))
      = Some ("nccl", world_size, rank) ∧
    environ (snd (setup_distributed int_decimal first_host "nccl" None true
                    slurm_task)) !! "HOME" = environ slurm_task !! "HOME".
Proof.
  assert (environ slurm_task !! "SLURM_JOB_ID" = Some "4242") as Hjob
    by (vm_compute; reflexivity).
  assert (fst (setup_distributed int_decimal first_host "nccl" None true slurm_task)
            = Ok tt) as Hok by (vm_compute; reflexivity).
  assert ("HOME" ∉ written) as Hk.
  { apply not_elem_of_by_decide. vm_compute. reflexivity. }
  split; [exact Hjob|]. split; [exact Hok|]. split; [exact Hk|].
  exact (slurm_exports int_decimal first_host "nccl" None true slurm_task "4242"
           "HOME" Hjob Hok Hk).
Defined.

Lemma slurm_without_devices_witness :
  environ (mk (environ slurm_task) 0 None None None) !! "SLURM_JOB_ID" = Some "4242" ∧
  environ (mk (environ slurm_task) 0 None None None) !! "SLURM_PROCID" = Some "5" ∧
  int_decimal "5" = Py.Ok 5 ∧
  environ (mk (environ slurm_task) 0 None None None) !! "SLURM_NTASKS" = Some "8" ∧
  int_decimal "8" = Py.Ok 8 ∧
  environ (mk (environ slurm_task) 0 None None None) !! "SLURM_NODELIST"
    = Some "node[01-02]" ∧
  device_count (mk (environ slurm_task) 0 None None None) = 0 ∧
  fst (setup_distributed int_decimal first_host "nccl" None true
         (mk (environ slurm_task) 0 None None None))
    = Raise (Builtin Py.ZeroDivisionError) ∧
  environ (snd (setup_distributed int_decimal first_host "nccl" None true
                  (mk (environ slurm_task) 0 None None None))) !! "WORLD_SIZE"
    = Some (Builtins.str 8) ∧
  environ (snd (setup_distributed int_decimal first_host "nccl" None true
                  (mk (environ slurm_task) 0 None None None))) !! "LOCAL_RANK"
    = environ (mk (environ slurm_task) 0 None None None) !! "LOCAL_RANK" ∧
  environ (snd (setup_distributed int_decimal first_host "nccl" None true
                  (mk (environ slurm_task) 0 None None None))) !! "RANK"
    = environ (mk (environ slurm_task) 0 None None None) !! "RANK".
Proof.
  do 7 (split; [vm_compute; reflexivity|]).
  apply (slurm_without_devices int_decimal first_host "nccl" None true
           (mk (environ slurm_task) 0 None None None)
           "4242" "5" "8" "node[01-02]" 5 8);
    vm_compute; reflexivity.
Defined.

End SetupWitnesses.

(** ** ProgressMeter *)

Section FormatProofs.
Import Format.

(** *** Strings *)

Lemma string_app_cons (a : ascii) (s t : string) :
  String a s +:+ t = String a (s +:+ t).
Proof. reflexivity. Qed.

Lemma string_app_nil_l (t : string) : "" +:+ t = t.
Proof. reflexivity. Qed.

Lemma string_app_nil_r (s : string) : s +:+ "" = s.
Proof. induction s as [|a s IH]; [done|]. by rewrite string_app_cons, IH. Qed.

Lemma string_app_assoc (s t u : string) : (s +:+ t) +:+ u = s +:+ (t +:+ u).
Proof.
  induction s as [|a s IH]; [done|]. by rewrite !string_app_cons, IH.
Qed.

Lemma string_length_app (s t : string) :
  String.length (s +:+ t) = (String.length s + String.length t)%nat.
Proof.
  induction s as [|a s IH]; [done|]. rewrite string_app_cons. cbn. by rewrite IH.
Qed.

Lemma length_spaces (n : nat) : String.length (spaces n) = n.
Proof. induction n as [|n IH]; cbn; congruence. Qed.

(** Right-aligning never truncates and pads up to the width. *)
Lemma length_rjust (width : nat) (s : string) :
  String.length (rjust width s) = Nat.max width (String.length s).
Proof. unfold rjust. rewrite string_length_app, length_spaces. lia. Qed.

Lemma rjust_exact (s : string) : rjust (String.length s) s = s.
Proof. unfold rjust. by rewrite Nat.sub_diag. Qed.

(** *** Cutting *)

Lemma cut_app_found (c : ascii) (s l r t : string) :
  cut c s = Some (l, r) → cut c (s +:+ t) = Some (l, r +:+ t).
Proof.
  revert l. induction s as [|a s IH]; intros l; [done|].
  rewrite string_app_cons. cbn [cut].
  destruct (Ascii.eqb a c); [by intros [= <- <-]|].
  destruct (cut c s) as [[l' r']|]; [|done].
  intros [= <- <-]. by rewrite (IH l' eq_refl).
Qed.

Lemma cut_app_absent (c : ascii) (s t : string) :
  cut c s = None →
  cut c (s +:+ t) = match cut c t with
                    | Some (l, r) => Some (s +:+ l, r)
                    | None => None
                    end.
Proof.
  induction s as [|a s IH].
  - intros _. rewrite string_app_nil_l. by destruct (cut c t) as [[l r]|].
  - rewrite string_app_cons. cbn [cut].
    destruct (Ascii.eqb a c); [done|].
    destruct (cut c s) as [[l' r']|]; [done|]. intros _.
    rewrite IH by done. by destruct (cut c t) as [[l r]|].
Qed.

Lemma has_cons (c a : ascii) (s : string) :
  has c (String a s) = Ascii.eqb a c || has c s.
Proof.
  unfold has. cbn [cut]. destruct (Ascii.eqb a c); [done|].
  by destruct (cut c s) as [[l r]|].
Qed.

Lemma has_app (c : ascii) (s t : string) : has c (s +:+ t) = has c s || has c t.
Proof.
  unfold has. destruct (cut c s) as [[l r]|] eqn:Hs.
  - by rewrite (cut_app_found _ _ _ _ _ Hs).
  - rewrite cut_app_absent by done. by destruct (cut c t) as [[l r]|].
Qed.

(** *** Decimal digits *)

Lemma cut_digits (c : ascii) (d : Decimal.uint) :
  not_a_digit c → cut c (NilEmpty.string_of_uint d) = None.
Proof.
  intros Hc. unfold not_a_digit in Hc. rewrite !Forall_cons in Hc.
  destruct Hc as (H0 & H1 & H2 & H3 & H4 & H5 & H6 & H7 & H8 & H9 & _).
  induction d as [|d IH|d IH|d IH|d IH|d IH|d IH|d IH|d IH|d IH|d IH];
    cbn [NilEmpty.string_of_uint cut];
    rewrite ?H0, ?H1, ?H2, ?H3, ?H4, ?H5, ?H6, ?H7, ?H8, ?H9, ?IH; done.
Qed.

Lemma open_brace_not_digit : not_a_digit "{".
Proof. repeat constructor. Qed.
Lemma close_brace_not_digit : not_a_digit "}".
Proof. repeat constructor. Qed.
Lemma letter_d_not_digit : not_a_digit "d".
Proof. repeat constructor. Qed.

(** [str(n)] for [n >= 0] is the digits of [n]. *)
Lemma str_nonneg (n : N) :
  Builtins.str (Z.of_N n) = NilEmpty.string_of_uint (N.to_uint n).
Proof.
  unfold Builtins.str. destruct n as [|p]; [done|]. cbn.
  pose proof (DecimalPos.Unsigned.to_uint_nonnil p) as Hnil.
  by destruct (Pos.to_uint p).
Qed.

Lemma str_neg (p : positive) :
  Builtins.str (Z.neg p) = String "-" (NilEmpty.string_of_uint (Pos.to_uint p)).
Proof.
  unfold Builtins.str. cbn.
  pose proof (DecimalPos.Unsigned.to_uint_nonnil p) as Hnil.
  by destruct (Pos.to_uint p).
Qed.

Lemma str_cases (n : Z) :
  ∃ d, Builtins.str n = NilEmpty.string_of_uint d ∨
       Builtins.str n = String "-" (NilEmpty.string_of_uint d).
Proof.
  destruct n as [|p|p].
  - exists (N.to_uint 0). left. apply (str_nonneg 0).
  - exists (N.to_uint (N.pos p)). left. apply (str_nonneg (N.pos p)).
  - exists (Pos.to_uint p). right. apply str_neg.
Qed.

(** [str(n)] has no brace in it. *)
Lemma has_brace_str (n : Z) :
  has "{" (Builtins.str n) = false ∧ has "}" (Builtins.str n) = false.
Proof.
  unfold has. destruct (str_cases n) as [d [-> | ->]]; cbn;
    rewrite !cut_digits by (apply open_brace_not_digit || apply close_brace_not_digit);
    done.
Qed.

Lemma length_string_of_uint (d : Decimal.uint) :
  String.length (NilEmpty.string_of_uint d) = Decimal.nb_digits d.
Proof. induction d; cbn; congruence. Qed.

Lemma length_str_pos (n : Z) : (0 < String.length (Builtins.str n))%nat.
Proof.
  destruct n as [|p|p].
  - cbn. lia.
  - change (Z.pos p) with (Z.of_N (N.pos p)).
    rewrite (str_nonneg (N.pos p)), length_string_of_uint. cbn.
    pose proof (DecimalPos.Unsigned.to_uint_nonnil p) as Hnil.
    destruct (Pos.to_uint p); cbn; try lia. done.
  - rewrite str_neg. cbn. lia.
Qed.

Lemma to_uint_no_leading_zero (p : positive) (d : Decimal.uint) :
  Pos.to_uint p ≠ Decimal.D0 d.
Proof.
  intros H.
  pose proof (DecimalPos.Unsigned.to_of (Pos.to_uint p)) as Hnorm.
  rewrite DecimalPos.Unsigned.of_to in Hnorm. cbn [N.to_uint] in Hnorm.
  rewrite H in Hnorm.
  change (Decimal.unorm (Decimal.D0 d)) with (Decimal.unorm d) in Hnorm.
  assert (d = Decimal.Nil ∨ d ≠ Decimal.Nil) as [->|Hd]
    by (destruct d; [by left|right; discriminate..]).
  - by apply (DecimalPos.Unsigned.to_uint_nonzero p).
  - pose proof (nb_digits_unorm d Hd) as Hle.
    rewrite <-Hnorm in Hle. cbn in Hle. lia.
Qed.

(** A positive number's decimal form, read as a width, is the number. *)
Lemma width_of_str (p : positive) :
  width_of (Builtins.str (Z.pos p)) = Some (Pos.to_nat p).
Proof.
  change (Z.pos p) with (Z.of_N (N.pos p)). rewrite str_nonneg. cbn [N.to_uint].
  pose proof (DecimalPos.Unsigned.to_uint_nonnil p) as Hnil.
  pose proof (to_uint_no_leading_zero p) as Hzero.
  pose proof (NilEmpty.usu (Pos.to_uint p)) as Husu.
  pose proof (DecimalPos.Unsigned.of_to p) as Hof.
  unfold width_of.
  destruct (Pos.to_uint p) as [|d|d|d|d|d|d|d|d|d|d] eqn:Hd;
    [done|by destruct (Hzero d)|..];
    cbn [NilEmpty.string_of_uint]; cbv [Ascii.eqb Bool.eqb];
    (etransitivity; [apply (f_equal (option_map _)), Husu|]);
    cbn [option_map]; unfold N.of_uint; by rewrite Hof.
Qed.

Lemma not_digit_str_pos (c : ascii) (p : positive) :
  not_a_digit c → cut c (Builtins.str (Z.pos p)) = None.
Proof.
  intros Hc. change (Z.pos p) with (Z.of_N (N.pos p)). rewrite str_nonneg.
  by apply cut_digits.
Qed.

(** *** One field *)

(** A template with one width-[n] field between brace-free texts. *)
Lemma format_d_field (pre post : string) (p : positive) (arg : Z) :
  has "{" pre = false → has "}" pre = false →
  has "{" post = false → has "}" post = false →
  format_d (pre +:+ "{:" +:+ Builtins.str (Z.pos p) +:+ "d}" +:+ post) arg =
    Some (pre +:+ rjust (Pos.to_nat p) (Builtins.str arg) +:+ post).
Proof.
  intros Hpre1 Hpre2 Hpost1 Hpost2. unfold format_d, has in *.
  set (w := Builtins.str (Z.pos p)).
  assert (cut "{" w = None) as Hw1 by apply not_digit_str_pos, open_brace_not_digit.
  assert (cut "}" w = None) as Hw2 by apply not_digit_str_pos, close_brace_not_digit.
  assert (cut "d" w = None) as Hw3 by apply not_digit_str_pos, letter_d_not_digit.
  destruct (cut "{" pre) as [[? ?]|] eqn:Hp1; [done|].
  destruct (cut "}" pre) as [[? ?]|] eqn:Hp2; [done|].
  destruct (cut "{" post) as [[? ?]|] eqn:Hq1; [done|].
  destruct (cut "}" post) as [[? ?]|] eqn:Hq2; [done|].
  rewrite (cut_app_absent "{" pre) by done.
  change ("{:" +:+ w +:+ "d}" +:+ post)
    with (String "{" (String ":" (w +:+ "d}" +:+ post))).
  cbn [cut]. change (Ascii.eqb "{" "{") with true. cbn iota.
  rewrite string_app_nil_r.
  assert (cut "}" (String ":" (w +:+ "d}" +:+ post))
            = Some (String ":" (w +:+ "d"), post)) as ->.
  { cbn [cut]. change (Ascii.eqb ":" "}") with false. cbn iota.
    rewrite (cut_app_absent "}" w) by done.
    change ("d}" +:+ post) with (String "d" (String "}" post)).
    cbn [cut]. change (Ascii.eqb "d" "}") with false.
    change (Ascii.eqb "}" "}") with true. cbn iota. done. }
  rewrite Hp2, Hq1, Hq2.
  assert (cut "{" (String ":" (w +:+ "d")) = None) as ->.
  { cbn [cut]. change (Ascii.eqb ":" "{") with false. cbn iota.
    rewrite (cut_app_absent "{" w) by done. done. }
  cbn [orb].
  assert (cut "d" (w +:+ "d") = Some (w, EmptyString)) as ->.
  { rewrite (cut_app_absent "d" w) by done.
    cbn [cut]. change (Ascii.eqb "d" "d") with true. cbn iota.
    by rewrite string_app_nil_r. }
  subst w. by rewrite width_of_str.
Qed.

End FormatProofs.

Section ProgressMeterProofs.
Import Format ProgressMeter.
Context {Meter : Type}.
Variable str_meter : Meter → Py.result string.

(** *** Number of digits *)

Lemma nb_digits_succ (d : Decimal.uint) :
  (Decimal.nb_digits d ≤ Decimal.nb_digits (Decimal.Little.succ d))%nat.
Proof. induction d; cbn; lia. Qed.

Lemma to_uint_rev (n : N) : N.to_uint n = Decimal.rev (DecimalPos.Unsigned.to_lu n).
Proof. by destruct n. Qed.

Lemma nb_digits_mono (b n : N) :
  (b ≤ n)%N →
  (Decimal.nb_digits (N.to_uint b) ≤ Decimal.nb_digits (N.to_uint n))%nat.
Proof.
  intros Hle. rewrite !to_uint_rev, !nb_digits_rev.
  replace n with (b + (n - b))%N by lia.
  generalize (n - b)%N as k. clear. intros k.
  induction k as [|k IH] using N.peano_ind.
  - by rewrite N.add_0_r.
  - rewrite N.add_succ_r, DecimalPos.Unsigned.to_lu_succ.
    etransitivity; [exact IH|apply nb_digits_succ].
Qed.

(** A smaller natural number has no more digits. *)
Lemma length_str_mono (b n : Z) :
  (0 ≤ b ≤ n)%Z →
  (String.length (Builtins.str b) ≤ String.length (Builtins.str n))%nat.
Proof.
  intros [Hb Hbn].
  rewrite <-(Z2N.id b), <-(Z2N.id n) by lia.
  rewrite !str_nonneg, !length_string_of_uint.
  apply nb_digits_mono. lia.
Qed.

(** *** The format string *)

(** The counter shown for [batch] by a meter built for [num_batches]. *)
Lemma counter_template (num_batches : Z) :
  _get_batch_fmtstr num_batches =
    Some ("[" +:+ "{:" +:+ Builtins.str (Z.of_nat (String.length (Builtins.str num_batches)))
              +:+ "d}" +:+ "/" +:+ Builtins.str num_batches +:+ "]").
Proof.
  unfold _get_batch_fmtstr. rewrite Z.div_1_r. cbn zeta.
  pose proof (length_str_pos num_batches) as Hpos.
  destruct (String.length (Builtins.str num_batches)) as [|k] eqn:Hlen; [lia|].
  change (Z.of_nat (S k)) with (Z.pos (Pos.of_succ_nat k)).
  pose proof (format_d_field "" "" (Pos.of_succ_nat k) num_batches
                eq_refl eq_refl eq_refl eq_refl) as Hfmt.
  rewrite SuccNat2Pos.id_succ, <-Hlen, rjust_exact in Hfmt.
  rewrite string_app_nil_l, string_app_nil_r in Hfmt.
  change ("d}" +:+ "") with "d}" in Hfmt. rewrite string_app_nil_l in Hfmt.
  rewrite Hfmt. by rewrite !string_app_assoc.
Qed.

Lemma format_counter (num_batches batch : Z) (f : string) :
  _get_batch_fmtstr num_batches = Some f →
  format_d f batch =
    Some ("[" +:+ rjust (String.length (Builtins.str num_batches)) (Builtins.str batch)
              +:+ "/" +:+ Builtins.str num_batches +:+ "]").
Proof.
  rewrite counter_template. intros [= <-].
  pose proof (length_str_pos num_batches) as Hpos.
  destruct (String.length (Builtins.str num_batches)) as [|k] eqn:Hlen; [lia|].
  change (Z.of_nat (S k)) with (Z.pos (Pos.of_succ_nat k)).
  destruct (has_brace_str num_batches) as [Hb1 Hb2].
  rewrite (format_d_field "[" ("/" +:+ Builtins.str num_batches +:+ "]")).
  - by rewrite SuccNat2Pos.id_succ.
  - done.
  - done.
  - change ("/" +:+ Builtins.str num_batches +:+ "]")
      with (String "/" (Builtins.str num_batches +:+ "]")).
    rewrite has_cons, has_app, Hb1. done.
  - change ("/" +:+ Builtins.str num_batches +:+ "]")
      with (String "/" (Builtins.str num_batches +:+ "]")).
    rewrite has_cons, has_app, Hb2. done.
Qed.

(** X23.  The progress counter has a fixed width: for a meter built for
    [num_batches], every batch index between 0 and [num_batches] is shown
    as a counter of the same length, twice the number of digits of
    [num_batches] plus the three characters ["["], ["/"] and ["]"]. *)
Theorem progress_counter_width (num_batches batch : Z) (meters : list Meter)
    (prefix : string) :
  (0 ≤ batch ≤ num_batches)%Z →
  ∃ pm counter,
    init Meter num_batches meters prefix = Some pm ∧
    format_d (batch_fmtstr Meter pm) batch = Some counter ∧
    String.length counter
      = (2 * String.length (Builtins.str num_batches) + 3)%nat.
Proof.
  intros Hrange. unfold init.
  destruct (_get_batch_fmtstr num_batches) as [f|] eqn:Hf;
    [|by rewrite counter_template in Hf].
  eexists _, _. split; [reflexivity|]. cbn [batch_fmtstr].
  split; [by apply format_counter|].
  pose proof (length_str_mono batch num_batches Hrange) as Hmono.
  rewrite !string_length_app, length_rjust. cbn [String.length]. lia.
Qed.

(** X24.  [display] prints one line: for any integers [num_batches] and
    [batch], if every meter renders as text, [display(batch)] returns
    normally and appends exactly one line to the output: the prefix, the
    counter ["[" batch "/" num_batches "]"] with the batch index
    right-aligned to the digits of [num_batches], and each meter's text
    preceded by [" | "]. *)
Theorem progress_display_line (num_batches batch : Z) (meters : list Meter)
    (prefix : string) (texts : list string) (out : list string) :
  Forall2 (fun meter text => str_meter meter = Py.Ok text) meters texts →
  ∃ pm run,
    init Meter num_batches meters prefix = Some pm ∧
    display Meter str_meter pm batch = Some run ∧
    run out =
      (Py.Ok tt,
       out ++ [(prefix +:+ "[" +:+ rjust (String.length (Builtins.str num_batches))
                                        (Builtins.str batch)
                       +:+ "/" +:+ Builtins.str num_batches +:+ "]")
               +:+ String.concat "" (map (fun text => " | " +:+ text) texts)]).
Proof.
  intros Htexts. unfold init.
  destruct (_get_batch_fmtstr num_batches) as [f|] eqn:Hf;
    [|by rewrite counter_template in Hf].
  eexists _, _. split; [reflexivity|]. unfold display.
  cbn [batch_fmtstr ProgressMeter.meters ProgressMeter.prefix].
  rewrite (format_counter num_batches batch f Hf).
  split; [reflexivity|].
  unfold Py.bind. rewrite (for_append_pure str_meter meters texts) by done.
  reflexivity.
Qed.

(** X25.  A meter that cannot be rendered stops the line: if the first
    meters render as text and [str] of the next one raises, [display]
    raises that exception, whatever the meters after it would do, and
    prints nothing. *)
Theorem progress_display_failing_meter (num_batches batch : Z)
    (good : list Meter) (bad : Meter) (later : list Meter) (texts : list string)
    (e : Py.exn) (prefix : string) (out : list string) :
  Forall2 (fun meter text => str_meter meter = Py.Ok text) good texts →
  str_meter bad = Py.Raise e →
  ∃ pm run,
    init Meter num_batches (good ++ bad :: later) prefix = Some pm ∧
    display Meter str_meter pm batch = Some run ∧
    run out = (Py.Raise e, out).
Proof.
  intros Hgood Hbad. unfold init.
  destruct (_get_batch_fmtstr num_batches) as [f|] eqn:Hf;
    [|by rewrite counter_template in Hf].
  eexists _, _. split; [reflexivity|]. unfold display.
  cbn [batch_fmtstr ProgressMeter.meters ProgressMeter.prefix].
  rewrite (format_counter num_batches batch f Hf).
  split; [reflexivity|].
  unfold Py.bind.
  by rewrite (for_append_first_raise str_meter good bad later texts _ e out Hgood Hbad).
Qed.

End ProgressMeterProofs.

Section ProgressMeterWitnesses.
Import Format ProgressMeter.

Example batch_fmtstr_100 : _get_batch_fmtstr 100 = Some "[{:3d}/100]".
Proof. reflexivity. Qed.

Lemma progress_counter_width_witness :
  (0 ≤ 7 ≤ 100)%Z ∧
  ∃ pm counter,
    init string 100 ["Loss 0.5"] "Epoch: [1]" = Some pm ∧
    format_d (batch_fmtstr string pm) 7 = Some counter ∧
    String.length counter = (2 * String.length (Builtins.str 100) + 3)%nat.
Proof.
  split; [lia|].
  apply (@progress_counter_width string 100 7 ["Loss 0.5"] "Epoch: [1]"). lia.
Defined.

Lemma progress_display_line_witness :
  Forall2 (fun meter text => Py.Ok meter = Py.Ok text)
          ["Loss 0.5"; "Acc 3"] ["Loss 0.5"; "Acc 3"] ∧
  ∃ pm run,
    init string 100 ["Loss 0.5"; "Acc 3"] "Epoch: [1]" = Some pm ∧
    display string (fun meter => Py.Ok meter) pm 7 = Some run ∧
    run [] = (Py.Ok tt, ["Epoch: [1][  7/100] | Loss 0.5 | Acc 3"]).
Proof.
  assert (Forall2 (fun meter text => Py.Ok meter = Py.Ok text)
                  ["Loss 0.5"; "Acc 3"] ["Loss 0.5"; "Acc 3"]) as Htexts.
  { repeat constructor. }
  split; [exact Htexts|].
  exact (@progress_display_line string (fun meter => Py.Ok meter) 100 7
           ["Loss 0.5"; "Acc 3"] "Epoch: [1]" ["Loss 0.5"; "Acc 3"] [] Htexts).
Defined.

Lemma progress_display_failing_meter_witness :
  Forall2 (fun meter text => (if String.eqb meter "bad"
                              then Py.Raise (Py.ValueError "Invalid format specifier")
                              else Py.Ok meter) = Py.Ok text)
          ["Loss 0.5"] ["Loss 0.5"] ∧
  (if String.eqb "bad" "bad"
   then Py.Raise (Py.ValueError "Invalid format specifier")
   else Py.Ok "bad") = Py.Raise (Py.ValueError "Invalid format specifier") ∧
  ∃ pm run,
    init string 100 (["Loss 0.5"] ++ "bad" :: ["Acc 3"; "bad"]) "" = Some pm ∧
    display string (fun meter => if String.eqb meter "bad"
                                 then Py.Raise (Py.ValueError "Invalid format specifier")
                                 else Py.Ok meter) pm 7 = Some run ∧
    run [] = (Py.Raise (Py.ValueError "Invalid format specifier"), []).
Proof.
  assert (Forall2 (fun meter text =>
            (if String.eqb meter "bad"
             then Py.Raise (Py.ValueError "Invalid format specifier")
             else Py.Ok meter) = Py.Ok text) ["Loss 0.5"] ["Loss 0.5"]) as Hgood.
  { repeat constructor. }
  split; [exact Hgood|]. split; [reflexivity|].
  exact (@progress_display_failing_meter string
           (fun meter => if String.eqb meter "bad"
                         then Py.Raise (Py.ValueError "Invalid format specifier")
                         else Py.Ok meter)
           100 7 ["Loss 0.5"] "bad" ["Acc 3"; "bad"] ["Loss 0.5"]
           (Py.ValueError "Invalid format specifier") "" [] Hgood eq_refl).
Defined.

End ProgressMeterWitnesses.
